(** * list_freezones.py

    A shallow embedding of the script [src/list_freezones.py]:

<<
    try:
        output = subprocess.check_output(['curl', '-X', 'GET', URL])
        freezones = json.loads(output)
        print("Available Free Zones:")
        print("---------------------")
        for zone in freezones:
            print(f"ID: {zone['id']} - Name: {zone['name']}")
    except Exception as e:
        print(f"Error: {e}")
        sys.exit(1)
>>

    Bytes and Python strings are lists of integers (byte values and code
    points).  [json.loads] is modelled after CPython: encoding detection
    and decoding of the bytes, then the C scanner of [_json.c].  The
    console is the text written to stdout so far; [print] encodes its
    argument as UTF-8 and fails on lone surrogates. *)

From Stdlib Require Import ZArith List String Ascii Bool Lia.
Import ListNotations.
Open Scope Z_scope.
Local Set Warnings "-register-all".

(** ** Text and bytes *)

Definition text := list Z.
Definition bytes := list Z.

(** A literal written as a Rocq string. *)
Definition t (s : string) : text :=
  map (fun a => Z.of_nat (nat_of_ascii a)) (list_ascii_of_string s).

Fixpoint text_eqb (a b : text) : bool :=
  match a, b with
  | [], [] => true
  | x :: a', y :: b' => (x =? y) && text_eqb a' b'
  | _, _ => false
  end.

Definition newline : Z := 10.

Definition is_surrogate (c : Z) : bool := (55296 <=? c) && (c <=? 57343).

(** ** Python values produced by [json.loads] *)

Inductive PyVal :=
| PyNone
| PyBool (b : bool)
| PyInt (z : Z)
| PyFloat (lexeme : text)            (* float(lexeme) *)
| PyStr (s : text)
| PyList (l : list PyVal)
| PyDict (d : list (text * PyVal)).  (* keys unique, insertion order *)

Definition type_name (v : PyVal) : text :=
  match v with
  | PyNone => t "NoneType" | PyBool _ => t "bool" | PyInt _ => t "int"
  | PyFloat _ => t "float" | PyStr _ => t "str" | PyList _ => t "list"
  | PyDict _ => t "dict"
  end.

(** [d[k] = v] on a dict: an existing key keeps its place. *)
Fixpoint dict_set (d : list (text * PyVal)) (k : text) (v : PyVal)
  : list (text * PyVal) :=
  match d with
  | [] => [(k, v)]
  | (k', v') :: d' =>
      if text_eqb k k' then (k', v) :: d' else (k', v') :: dict_set d' k v
  end.

Fixpoint dict_get (d : list (text * PyVal)) (k : text) : option PyVal :=
  match d with
  | [] => None
  | (k', v') :: d' => if text_eqb k k' then Some v' else dict_get d' k
  end.

(** [dict(pairs)]: later duplicates overwrite earlier values. *)
Definition dict_of_pairs (ps : list (text * PyVal)) : list (text * PyVal) :=
  fold_left (fun d kv => dict_set d (fst kv) (snd kv)) ps [].

(** The value of the last pair with key [k]. *)
Fixpoint dict_last (ps : list (text * PyVal)) (k : text) : option PyVal :=
  match ps with
  | [] => None
  | (k', v) :: ps' =>
      match dict_last ps' k with
      | Some x => Some x
      | None => if text_eqb k k' then Some v else None
      end
  end.

(** The ints of a value, nested ones included. *)
Fixpoint py_ints (v : PyVal) : list Z :=
  match v with
  | PyInt z => [z]
  | PyList l =>
      (fix go (l : list PyVal) : list Z :=
         match l with [] => [] | x :: l' => py_ints x ++ go l' end) l
  | PyDict d =>
      (fix go (d : list (text * PyVal)) : list Z :=
         match d with [] => [] | (_, x) :: d' => py_ints x ++ go d' end) d
  | _ => []
  end.

(** ** Exceptions *)

(** The messages of [json.JSONDecodeError] raised by the C scanner. *)
Inductive DecodeErrKind :=
| ExpectingValue | ExtraData | ExpectingComma | ExpectingColon
| ExpectingPropertyName | UnterminatedString | InvalidControlChar
| InvalidEscape | InvalidUEscape.

Inductive Encoding :=
| UTF8 | UTF8_SIG | UTF16 | UTF16_BE | UTF16_LE | UTF32 | UTF32_BE | UTF32_LE.

Inductive Exc :=
| OSError_launch                                  (* curl cannot be started *)
| CalledProcessError (returncode : Z) (output : bytes)
| UnicodeDecodeError (enc : Encoding) (data : bytes)
| JSONDecodeError (kind : DecodeErrKind) (doc : text) (pos : nat)
| TypeError_not_iterable (tyname : text)          (* for x in 5 *)
| TypeError_indices (tyname : text)               (* 'abc'['id'], [1]['id'] *)
| TypeError_not_subscriptable (tyname : text)     (* 5['id'] *)
| KeyError (key : text)
| UnicodeEncodeError (s : text)                   (* print of a lone surrogate *)
| RecursionError_json (container : text)          (* nesting too deep *)
| ValueError_int_digits (limit digits : Z).       (* int literal too long *)

Inductive result (A : Type) :=
| Ok (x : A)
| Raise (e : Exc).
Arguments Ok {A} x.
Arguments Raise {A} e.

Definition rbind {A B} (r : result A) (k : A -> result B) : result B :=
  match r with Ok x => k x | Raise e => Raise e end.

Notation "x <-? r ;; k" := (rbind r (fun x => k))
  (at level 61, r at next level, right associativity).

(** ** Bytes to text: [json.detect_encoding] and UTF-8 with [surrogatepass] *)

Definition detect_encoding (b : bytes) : Encoding :=
  match b with
  | 0 :: 0 :: 254 :: 255 :: _ => UTF32
  | 255 :: 254 :: 0 :: 0 :: _ => UTF32
  | 254 :: 255 :: _ => UTF16
  | 255 :: 254 :: _ => UTF16
  | 239 :: 187 :: 191 :: _ => UTF8_SIG
  | b0 :: b1 :: b2 :: b3 :: _ =>
      if b0 =? 0 then (if b1 =? 0 then UTF32_BE else UTF16_BE)
      else if b1 =? 0 then
        (if (b2 =? 0) && (b3 =? 0) then UTF32_LE else UTF16_LE)
      else UTF8
  | [b0; b1] =>
      if b0 =? 0 then UTF16_BE else if b1 =? 0 then UTF16_LE else UTF8
  | _ => UTF8
  end.

Definition in_range (lo hi c : Z) : bool := (lo <=? c) && (c <=? hi).
Definition cont (c : Z) : bool := in_range 128 191 c.

Fixpoint utf8_decode (b : bytes) : option text :=
  match b with
  | [] => Some []
  | x :: r =>
      if x <? 128 then option_map (cons x) (utf8_decode r)
      else if in_range 194 223 x then
        match r with
        | y :: r' =>
            if cont y
            then option_map (cons ((x - 192) * 64 + (y - 128))) (utf8_decode r')
            else None
        | [] => None
        end
      else if in_range 224 239 x then
        match r with
        | y :: z :: r' =>
            (* surrogatepass: ED A0..BF 80..BF decodes to a surrogate *)
            if (if x =? 224 then in_range 160 191 y else cont y) && cont z
            then option_map (cons ((x - 224) * 4096 + (y - 128) * 64 + (z - 128)))
                   (utf8_decode r')
            else None
        | _ => None
        end
      else if in_range 240 244 x then
        match r with
        | y :: z :: w :: r' =>
            if (if x =? 240 then in_range 144 191 y
                else if x =? 244 then in_range 128 143 y else cont y)
               && cont z && cont w
            then option_map
                   (cons ((x - 240) * 262144 + (y - 128) * 4096
                          + (z - 128) * 64 + (w - 128)))
                   (utf8_decode r')
            else None
        | _ => None
        end
      else None
  end.

(** ** The JSON scanner ([Modules/_json.c], strict mode) *)

Definition is_ws (c : Z) : bool := (c =? 32) || (c =? 9) || (c =? 10) || (c =? 13).
Definition is_digit (c : Z) : bool := in_range 48 57 c.

Fixpoint ws_len (r : text) : nat :=
  match r with
  | c :: r' => if is_ws c then S (ws_len r') else O
  | [] => O
  end.

Definition skip_ws (s : text) (i : nat) : nat := (i + ws_len (skipn i s))%nat.

Definition hex_val (c : Z) : option Z :=
  if in_range 48 57 c then Some (c - 48)
  else if in_range 97 102 c then Some (c - 87)
  else if in_range 65 70 c then Some (c - 55)
  else None.

Definition hex4 (a b c d : Z) : option Z :=
  match hex_val a, hex_val b, hex_val c, hex_val d with
  | Some a, Some b, Some c, Some d => Some (((a * 16 + b) * 16 + c) * 16 + d)
  | _, _, _, _ => None
  end.

Definition simple_escape (c : Z) : option Z :=
  if c =? 34 then Some 34 else if c =? 92 then Some 92
  else if c =? 47 then Some 47 else if c =? 98 then Some 8
  else if c =? 102 then Some 12 else if c =? 110 then Some 10
  else if c =? 114 then Some 13 else if c =? 116 then Some 9
  else None.

Definition is_high (c : Z) : bool := in_range 55296 56319 c.
Definition is_low (c : Z) : bool := in_range 56320 57343 c.
Definition join_surrogates (hi lo : Z) : Z := 65536 + (hi - 55296) * 1024 + (lo - 56320).

(** [scanstring_unicode]: [r] is the rest of the document from index [pos]
    on, [begin] the index of the opening quote; returns the string and the
    index after the closing quote. *)
Fixpoint scanstring (s : text) (begin pos : nat) (r : text) (acc : text)
  : result (text * nat) :=
  let err k p := Raise (JSONDecodeError k s p) in
  match r with
  | [] => err UnterminatedString begin
  | c :: r1 =>
      if c =? 34 then Ok (rev acc, S pos)
      else if c =? 92 then
        match r1 with
        | [] => err UnterminatedString begin
        | e :: r2 =>
            if e =? 117 then
              match r2 with
              | a :: b :: c' :: d :: r3 =>
                  match r3 with
                  | [] => err InvalidUEscape (S pos)
                  | _ =>
                    match hex4 a b c' d with
                    | None => err InvalidUEscape (S pos)
                    | Some u =>
                        let plain := scanstring s begin (pos + 6)%nat r3 (u :: acc) in
                        if is_high u then
                          match r3 with
                          | bs :: uu :: a2 :: b2 :: c2 :: d2 :: r4 =>
                              match r4 with
                              | [] => plain
                              | _ =>
                                if (bs =? 92) && (uu =? 117) then
                                  match hex4 a2 b2 c2 d2 with
                                  | None => err InvalidUEscape (pos + 7)%nat
                                  | Some u2 =>
                                      if is_low u2
                                      then scanstring s begin (pos + 12)%nat r4
                                             (join_surrogates u u2 :: acc)
                                      else plain
                                  end
                                else plain
                              end
                          | _ => plain
                          end
                        else plain
                    end
                  end
              | _ => err InvalidUEscape (S pos)
              end
            else
              match simple_escape e with
              | Some x => scanstring s begin (pos + 2)%nat r2 (x :: acc)
              | None => err InvalidEscape pos
              end
        end
      else if c <? 32 then err InvalidControlChar pos
      else scanstring s begin (S pos) r1 (c :: acc)
  end.

Fixpoint digits_len (r : text) : nat :=
  match r with
  | c :: r' => if is_digit c then S (digits_len r') else O
  | [] => O
  end.

Definition sublist (s : text) (i j : nat) : text := firstn (j - i) (skipn i s).

Definition digit_at (s : text) (i : nat) : bool :=
  match nth_error s i with Some c => is_digit c | None => false end.
Definition char_at (s : text) (i : nat) (c : Z) : bool :=
  match nth_error s i with Some c' => c' =? c | None => false end.

(** Decimal value of a run of digits. *)
Definition digits_value (ds : text) : Z :=
  fold_left (fun acc c => acc * 10 + (c - 48)) ds 0.

Section Scanner.

(** The two limits of the scanner: [max_depth] is the number of arrays
    and objects that may already be open when another one is opened;
    opening one more then makes [Py_EnterRecursiveCall] raise
    [RecursionError] (so [max_depth + 1] containers can be nested: the
    interpreter's recursion limit less what the frames below
    [json.loads] already use, at least one); and
    [sys.get_int_max_str_digits()] (4300 by default, 0 for no limit),
    beyond which [int()] of a digit string raises [ValueError]. *)
Variable max_depth : nat.
Variable int_max_str_digits : Z.

(** [_match_number_unicode]: an optional minus, then 0 or a digit run not
    starting with 0, an optional fraction and an optional exponent;
    an integer literal becomes [int], anything with a fraction or an
    exponent [float].  [None] when no number starts at [start]; the
    conversion of an integer lexeme by [PyLong_FromString] raises
    [ValueError] when it has more digits than [int_max_str_digits]. *)
Definition match_number (s : text) (start : nat) : option (result (PyVal * nat)) :=
  let neg := char_at s start 45 in
  let i0 := if neg then S start else start in
  let int_end :=
    if char_at s i0 48 then Some (S i0)
    else if digit_at s i0 then Some (i0 + digits_len (skipn i0 s))%nat
    else None in
  match int_end with
  | None => None
  | Some i1 =>
      let frac := char_at s i1 46 && digit_at s (S i1) in
      let i2 := if frac then (S i1 + digits_len (skipn (S i1) s))%nat else i1 in
      let exp_start := if char_at s i2 101 || char_at s i2 69 then Some (S i2) else None in
      let i3 :=
        match exp_start with
        | None => None
        | Some j =>
            let j' := if (char_at s j 43 || char_at s j 45) && digit_at s (S j)
                      then S j else j in
            if digit_at s j' then Some (j' + digits_len (skipn j' s))%nat else None
        end in
      let is_float := frac || match i3 with Some _ => true | None => false end in
      let stop := match i3 with Some j => j | None => i2 end in
      if is_float then Some (Ok (PyFloat (sublist s start stop), stop))
      else
        let ndigits := Z.of_nat (i1 - i0) in
        if (0 <? int_max_str_digits) && (int_max_str_digits <? ndigits)
        then Some (Raise (ValueError_int_digits int_max_str_digits ndigits))
        else
          let mag := digits_value (sublist s i0 i1) in
          Some (Ok (PyInt (if neg then - mag else mag), i1))
  end.

Definition starts_at (s : text) (i : nat) (w : text) : bool :=
  text_eqb (firstn (List.length w) (skipn i s)) w.

(** [scan_once_unicode], [_parse_object_unicode] and [_parse_array_unicode].
    The fuel bounds the chain of nested calls.  Every call in it reads at
    least one character before the next one, except the call of
    [scan_once] by [parse_elems], which is followed by one that does; so
    [2 * length s + 2] is enough.  [depth] counts the
    arrays and objects open around [i]; opening a container when more than
    [max_depth] are open fails in [Py_EnterRecursiveCall], before its
    contents are read. *)
Fixpoint scan_once (fuel depth : nat) (s : text) (i : nat) : result (PyVal * nat) :=
  let err k p := Raise (JSONDecodeError k s p) in
  match fuel with
  | O => err ExpectingValue i
  | S f =>
    match nth_error s i with
    | None => err ExpectingValue i
    | Some c =>
      if c =? 34 then
        match scanstring s i (S i) (skipn (S i) s) [] with
        | Ok (str, j) => Ok (PyStr str, j)
        | Raise e => Raise e
        end
      else if c =? 123 then
        if Nat.ltb max_depth depth then Raise (RecursionError_json (t "object"))
        else
        let j := skip_ws s (S i) in
        if char_at s j 125 then Ok (PyDict [], S j)
        else match parse_members f (S depth) s j [] with
             | Ok (ps, k) => Ok (PyDict (dict_of_pairs ps), k)
             | Raise e => Raise e
             end
      else if c =? 91 then
        if Nat.ltb max_depth depth then Raise (RecursionError_json (t "array"))
        else
        let j := skip_ws s (S i) in
        if char_at s j 93 then Ok (PyList [], S j)
        else match parse_elems f (S depth) s j [] with
             | Ok (vs, k) => Ok (PyList vs, k)
             | Raise e => Raise e
             end
      else if starts_at s i (t "null") then Ok (PyNone, i + 4)%nat
      else if starts_at s i (t "true") then Ok (PyBool true, i + 4)%nat
      else if starts_at s i (t "false") then Ok (PyBool false, i + 5)%nat
      else if starts_at s i (t "NaN") then Ok (PyFloat (t "NaN"), i + 3)%nat
      else if starts_at s i (t "Infinity") then Ok (PyFloat (t "Infinity"), i + 8)%nat
      else if starts_at s i (t "-Infinity") then Ok (PyFloat (t "-Infinity"), i + 9)%nat
      else match match_number s i with
           | Some r => r
           | None => err ExpectingValue i
           end
    end
  end
(** Members of an object from index [i] (after the opening brace and its
    whitespace, or after a comma and its whitespace). *)
with parse_members (fuel depth : nat) (s : text) (i : nat) (acc : list (text * PyVal))
  : result (list (text * PyVal) * nat) :=
  let err k p := Raise (JSONDecodeError k s p) in
  match fuel with
  | O => err ExpectingValue i
  | S f =>
    if negb (char_at s i 34) then err ExpectingPropertyName i
    else
      match scanstring s i (S i) (skipn (S i) s) [] with
      | Raise e => Raise e
      | Ok (key, j) =>
          let j := skip_ws s j in
          if negb (char_at s j 58) then err ExpectingColon j
          else
            let j := skip_ws s (S j) in
            match scan_once f depth s j with
            | Raise e => Raise e
            | Ok (v, k) =>
                let k := skip_ws s k in
                let acc := (key, v) :: acc in
                if char_at s k 125 then Ok (rev acc, S k)
                else if negb (char_at s k 44) then err ExpectingComma k
                else parse_members f depth s (skip_ws s (S k)) acc
            end
      end
  end
with parse_elems (fuel depth : nat) (s : text) (i : nat) (acc : list PyVal)
  : result (list PyVal * nat) :=
  let err k p := Raise (JSONDecodeError k s p) in
  match fuel with
  | O => err ExpectingValue i
  | S f =>
    match scan_once f depth s i with
    | Raise e => Raise e
    | Ok (v, k) =>
        let k := skip_ws s k in
        let acc := v :: acc in
        if char_at s k 93 then Ok (rev acc, S k)
        else if negb (char_at s k 44) then err ExpectingComma k
        else parse_elems f depth s (skip_ws s (S k)) acc
    end
  end.

(** [JSONDecoder.decode]. *)
Definition json_decode (s : text) : result PyVal :=
  let i := skip_ws s 0 in
  match scan_once (S (S (2 * List.length s))) O s i with
  | Raise e => Raise e
  | Ok (v, j) =>
      let j := skip_ws s j in
      if Nat.eqb j (List.length s) then Ok v
      else Raise (JSONDecodeError ExtraData s j)
  end.

End Scanner.

(** A JSON literal written with single quotes standing for double quotes. *)
Definition tq (s : string) : text := map (fun c => if c =? 39 then 34 else c) (t s).

(** ** Concrete runtime parameters for evaluating runs

    The script section below is parameterised by parts of the Python
    runtime; these stand-ins fix them for concrete runs: floats print as
    their JSON lexeme, code points 128 to 160 are unprintable, the UTF-16
    and UTF-32 codecs fail, an exception prints as its class name, and
    the scanner's limits are 1000 open containers and CPython's default
    of 4300 digits. *)

Definition float_str0 (lexeme : text) : text := lexeme.
Definition uni_printable0 (c : Z) : bool := negb (in_range 128 160 c).
Definition decode_wide0 (enc : Encoding) (b : bytes) : option text := None.
Definition max_depth0 : nat := 999.
Definition int_max_str_digits0 : Z := 4300.
Definition exc_str0 (e : Exc) : text :=
  match e with
  | OSError_launch => t "FileNotFoundError"
  | CalledProcessError _ _ => t "CalledProcessError"
  | UnicodeDecodeError _ _ => t "UnicodeDecodeError"
  | JSONDecodeError _ _ _ => t "JSONDecodeError"
  | TypeError_not_iterable _ | TypeError_indices _
  | TypeError_not_subscriptable _ => t "TypeError"
  | KeyError _ => t "KeyError"
  | UnicodeEncodeError _ => t "UnicodeEncodeError"
  | RecursionError_json _ => t "RecursionError"
  | ValueError_int_digits _ _ => t "ValueError"
  end.

(** ** The script *)

Section Script.

(** Parts of the Python runtime the script relies on without fixing them:
    [str(float(lexeme))] (shortest round-trip repr), the Unicode
    printability table used by [repr] for non-ASCII code points, the
    UTF-16 and UTF-32 codecs, and the message [str(e)] of an exception. *)
Variable float_str : text -> text.
Variable uni_printable : Z -> bool.
Variable decode_wide : Encoding -> bytes -> option text.
Variable exc_str : Exc -> text.
(** The scanner's limits (see [Section Scanner]). *)
Variable max_depth : nat.
Variable int_max_str_digits : Z.

(** [json.loads(b)] for bytes [b]:
    [b.decode(detect_encoding(b), 'surrogatepass')], then decoding. *)
Definition decode_bytes (b : bytes) : result text :=
  let enc := detect_encoding b in
  let r := match enc with
           | UTF8 => utf8_decode b
           | UTF8_SIG => utf8_decode (skipn 3 b)
           | _ => decode_wide enc b
           end in
  match r with
  | Some s => Ok s
  | None => Raise (UnicodeDecodeError enc b)
  end.

Definition json_loads (b : bytes) : result PyVal :=
  s <-? decode_bytes b ;; json_decode max_depth int_max_str_digits s.

(** *** [str] and [repr] *)

Fixpoint dec_digits (fuel : nat) (n : Z) (acc : text) : text :=
  match fuel with
  | O => acc
  | S f => if n <? 10 then (48 + n) :: acc
           else dec_digits f (n / 10) (48 + n mod 10 :: acc)
  end.

(** [str(int)].  CPython's [str] raises [ValueError] for an int of more
    than [sys.get_int_max_str_digits()] digits; that branch is left out
    here, because every int this script formats comes out of
    [json.loads], which already refuses longer integer literals
    ([json_loads_int_digits] below). *)
Definition int_str (z : Z) : text :=
  match z with
  | Z0 => [48]
  | Zpos p => dec_digits (Pos.size_nat p) z []
  | Zneg p => 45 :: dec_digits (Pos.size_nat p) (Zpos p) []
  end.

(** [str(z)] passes CPython's digit limit: the limit is off, or the
    decimal text of [|z|] has at most that many digits. *)
Definition str_int_within_limit (z : Z) : Prop :=
  int_max_str_digits <= 0 \/
  Z.of_nat (List.length (int_str (Z.abs z))) <= int_max_str_digits.

Definition hex_digit (d : Z) : Z := if d <? 10 then 48 + d else 87 + d.

Fixpoint hexn (n : nat) (v : Z) : text :=
  match n with
  | O => []
  | S n' => hexn n' (v / 16) ++ [hex_digit (v mod 16)]
  end.

(** One character of [unicode_repr] with quote [q]. *)
Definition repr_char (q c : Z) : text :=
  if (c =? q) || (c =? 92) then [92; c]
  else if c =? 9 then [92; 116]
  else if c =? 10 then [92; 110]
  else if c =? 13 then [92; 114]
  else if (c <? 32) || (c =? 127) then 92 :: 120 :: hexn 2 c
  else if c <? 127 then [c]
  else if uni_printable c && negb (is_surrogate c) then [c]
  else if c <=? 255 then 92 :: 120 :: hexn 2 c
  else if c <=? 65535 then 92 :: 117 :: hexn 4 c
  else 92 :: 85 :: hexn 8 c.

(** [repr(str)]: single quotes unless the text has a single quote and no
    double quote. *)
Definition repr_str (s : text) : text :=
  let q := if existsb (Z.eqb 39) s && negb (existsb (Z.eqb 34) s) then 34 else 39 in
  q :: List.concat (map (repr_char q) s) ++ [q].

Fixpoint join (sep : text) (xs : list text) : text :=
  match xs with
  | [] => []
  | [x] => x
  | x :: xs' => x ++ sep ++ join sep xs'
  end.

(** [repr(v)].  The recursion guard of [PyObject_Repr] is left out: a
    value printed by the script sits inside the array [json.loads]
    returned, so it is nested less deeply than the scanner's own guard
    allowed. *)
Fixpoint py_repr (v : PyVal) : text :=
  match v with
  | PyNone => t "None"
  | PyBool true => t "True"
  | PyBool false => t "False"
  | PyInt z => int_str z
  | PyFloat l => float_str l
  | PyStr s => repr_str s
  | PyList l => [91] ++ join (t ", ") (map py_repr l) ++ [93]
  | PyDict d =>
      [123] ++ join (t ", ")
                 (map (fun kv => repr_str (fst kv) ++ t ": " ++ py_repr (snd kv)) d)
      ++ [125]
  end.

(** [str(v)], which is also [format(v, '')] as used by an f-string. *)
Definition py_str (v : PyVal) : text :=
  match v with
  | PyStr s => s
  | _ => py_repr v
  end.

(** *** Console and exceptions *)

(** A computation of the script: from the stdout text written so far to
    the new stdout text and a value or a raised exception. *)
Definition M (A : Type) := text -> text * result A.

Definition ret {A} (x : A) : M A := fun out => (out, Ok x).
Definition bind {A B} (m : M A) (k : A -> M B) : M B :=
  fun out => match m out with
             | (out', Ok x) => k x out'
             | (out', Raise e) => (out', Raise e)
             end.
Definition lift {A} (r : result A) : M A := fun out => (out, r).

Notation "x <- m ;; k" := (bind m (fun x => k))
  (at level 61, m at next level, right associativity).
Notation "m ;;; k" := (bind m (fun _ => k)) (at level 61, right associativity).

(** UTF-8 encoding on stdout (errors='strict') fails on a lone surrogate. *)
Definition encodable (s : text) : bool := forallb (fun c => negb (is_surrogate c)) s.

(** [print(s)]. *)
Definition print (s : text) : M unit :=
  fun out => if encodable s then (out ++ s ++ [newline], Ok tt)
             else (out, Raise (UnicodeEncodeError s)).

(** *** The script body *)

(** The outcome of [subprocess.check_output(['curl', ...])]. *)
Inductive Proc :=
| ProcLaunchFailure                     (* curl cannot be executed *)
| ProcExit (returncode : Z) (stdout : bytes).

Definition check_output (p : Proc) : result bytes :=
  match p with
  | ProcLaunchFailure => Raise OSError_launch
  | ProcExit code out =>
      if code =? 0 then Ok out else Raise (CalledProcessError code out)
  end.

(** [iter(v)]: a list yields its items, a dict its keys, a str its
    characters. *)
Definition py_iter (v : PyVal) : result (list PyVal) :=
  match v with
  | PyList l => Ok l
  | PyDict d => Ok (map (fun kv => PyStr (fst kv)) d)
  | PyStr s => Ok (map (fun c => PyStr [c]) s)
  | _ => Raise (TypeError_not_iterable (type_name v))
  end.

(** [v[k]] for a string key [k]. *)
Definition getitem (v : PyVal) (k : text) : result PyVal :=
  match v with
  | PyDict d =>
      match dict_get d k with
      | Some x => Ok x
      | None => Raise (KeyError k)
      end
  | PyList _ | PyStr _ => Raise (TypeError_indices (type_name v))
  | _ => Raise (TypeError_not_subscriptable (type_name v))
  end.

Definition header1 : text := t "Available Free Zones:".
Definition header2 : text := t "---------------------".

(** [f"ID: {zone['id']} - Name: {zone['name']}"]. *)
Definition record_line (zone : PyVal) : result text :=
  i <-? getitem zone (t "id") ;;
  n <-? getitem zone (t "name") ;;
  Ok (t "ID: " ++ py_str i ++ t " - Name: " ++ py_str n).

(** [for zone in zones: print(...)]. *)
Fixpoint print_zones (zones : list PyVal) : M unit :=
  match zones with
  | [] => ret tt
  | zone :: zones' =>
      line <- lift (record_line zone) ;;
      print line ;;;
      print_zones zones'
  end.

(** The body of the [try]. *)
Definition main_body (p : Proc) : M unit :=
  output <- lift (check_output p) ;;
  freezones <- lift (json_loads output) ;;
  print header1 ;;;
  print header2 ;;;
  zones <- lift (py_iter freezones) ;;
  print_zones zones.

(** The whole script, started with [out0] already on stdout: final stdout
    and exit status.  In the [except] block, a failing [print] raises an
    uncaught exception, which also exits with status 1. *)
Definition run_from (out0 : text) (p : Proc) : text * Z :=
  match main_body p out0 with
  | (out, Ok _) => (out, 0)
  | (out, Raise e) => (fst (print (t "Error: " ++ exc_str e) out), 1)
  end.

Definition run (p : Proc) : text * Z := run_from [] p.

(** The lines of stdout: the text split at line feeds, a final line feed
    ending the last line. *)
Fixpoint split_nl (s : text) : list text :=
  match s with
  | [] => [[]]
  | c :: s' =>
      if c =? newline then [] :: split_nl s'
      else match split_nl s' with
           | l :: ls => (c :: l) :: ls
           | [] => [[c]]
           end
  end.

Definition lines (s : text) : list text :=
  let p := split_nl s in
  match last p [] with
  | [] => removelast p
  | _ => p
  end.

(** What [print] writes for a list of lines. *)
Definition render (ls : list text) : text :=
  List.concat (map (fun l => l ++ [newline]) ls).

(** A line that prints as one stdout line: no line feed, no lone surrogate. *)
Definition clean (l : text) : bool :=
  forallb (fun c => negb (c =? newline) && negb (is_surrogate c)) l.

(** What the loop body does with one zone: the line it prints, or the
    exception raised by the subscripts or by [print]. *)
Definition zone_outcome (zone : PyVal) : result text :=
  line <-? record_line zone ;;
  if encodable line then Ok line else Raise (UnicodeEncodeError line).

Definition error_line (e : Exc) : text := t "Error: " ++ exc_str e.

(** A computation that only appends to stdout. *)
Definition Appends {A} (m : M A) : Prop :=
  forall out, m out = (out ++ fst (m []), snd (m [])).

(** ** General lemmas *)

Lemma text_eqb_refl : forall a, text_eqb a a = true.
Proof. induction a; simpl; [reflexivity | now rewrite Z.eqb_refl]. Qed.

Lemma render_cons : forall l ls, render (l :: ls) = l ++ [newline] ++ render ls.
Proof. intros; unfold render; simpl; now rewrite <- app_assoc. Qed.

Lemma render_app : forall ls1 ls2, render (ls1 ++ ls2) = render ls1 ++ render ls2.
Proof. intros; unfold render; now rewrite map_app, concat_app. Qed.

Lemma clean_encodable : forall l, clean l = true -> encodable l = true.
Proof.
  unfold clean, encodable; intros l H; rewrite forallb_forall in *.
  intros c Hc; specialize (H c Hc); apply andb_true_iff in H; exact (proj2 H).
Qed.

Lemma clean_no_newline : forall l, clean l = true -> ~ In newline l.
Proof.
  unfold clean; intros l H Hin; rewrite forallb_forall in H.
  specialize (H _ Hin); rewrite Z.eqb_refl in H; discriminate.
Qed.

Lemma split_nl_line : forall l rest, ~ In newline l ->
  split_nl (l ++ newline :: rest) = l :: split_nl rest.
Proof.
  induction l as [|c l IH]; intros rest Hl; [reflexivity|].
  simpl in Hl |- *.
  destruct (Z.eqb_spec c newline) as [E|E]; [exfalso; auto|].
  rewrite IH by auto; reflexivity.
Qed.

Lemma split_nl_render : forall ls, Forall (fun l => ~ In newline l) ls ->
  split_nl (render ls) = ls ++ [[]].
Proof.
  induction 1 as [|l ls Hl _ IH]; [reflexivity|].
  rewrite render_cons; simpl app at 2; rewrite split_nl_line, IH by auto;
  reflexivity.
Qed.

(** Lines that contain no line feed are read back by [lines]. *)
Lemma lines_render : forall ls, Forall (fun l => ~ In newline l) ls ->
  lines (render ls) = ls.
Proof.
  intros ls H; unfold lines; rewrite split_nl_render by exact H.
  rewrite last_last, removelast_last; reflexivity.
Qed.

Lemma print_clean : forall s out, clean s = true ->
  print s out = (out ++ render [s], Ok tt).
Proof.
  intros s out H; unfold print; rewrite clean_encodable by exact H.
  unfold render; simpl; now rewrite app_nil_r.
Qed.

Lemma print_zones_nil : forall out, print_zones [] out = (out, Ok tt).
Proof. reflexivity. Qed.

Lemma print_zones_cons_ok : forall z ln rest out,
  zone_outcome z = Ok ln ->
  print_zones (z :: rest) out = print_zones rest (out ++ render [ln]).
Proof.
  intros z ln rest out H; unfold zone_outcome in H; simpl.
  unfold bind, lift, print.
  destruct (record_line z) as [l|e]; simpl in H; [|discriminate].
  destruct (encodable l); inversion H; subst.
  unfold render; simpl; now rewrite app_nil_r.
Qed.

Lemma print_zones_cons_fail : forall z e rest out,
  zone_outcome z = Raise e -> print_zones (z :: rest) out = (out, Raise e).
Proof.
  intros z e rest out H; unfold zone_outcome in H; simpl.
  unfold bind, lift, print.
  destruct (record_line z) as [l|e']; simpl in H; [|now inversion H].
  destruct (encodable l); inversion H; reflexivity.
Qed.

(** The zones whose lines were printed come first, and nothing of the loop
    touches the zones after the failing one. *)
Lemma print_zones_prefix : forall pre lns rest out,
  Forall2 (fun z ln => zone_outcome z = Ok ln) pre lns ->
  print_zones (pre ++ rest) out = print_zones rest (out ++ render lns).
Proof.
  intros pre lns rest out H; revert out.
  induction H as [|z ln pre lns Hz _ IH]; intros out.
  - simpl; now rewrite app_nil_r.
  - simpl app; rewrite (print_zones_cons_ok _ _ _ _ Hz), IH.
    rewrite <- app_assoc, <- render_app; reflexivity.
Qed.

Lemma print_zones_all_ok : forall zs lns out,
  Forall2 (fun z ln => zone_outcome z = Ok ln) zs lns ->
  print_zones zs out = (out ++ render lns, Ok tt).
Proof.
  intros zs lns out H.
  rewrite <- (app_nil_r zs), (print_zones_prefix _ _ _ _ H); reflexivity.
Qed.

Lemma print_zones_some_fail : forall pre z post out,
  (exists e, zone_outcome z = Raise e) ->
  exists pre1 pre2 lns e,
    pre = pre1 ++ pre2 /\
    Forall2 (fun z ln => zone_outcome z = Ok ln) pre1 lns /\
    print_zones (pre ++ z :: post) out = (out ++ render lns, Raise e).
Proof.
  induction pre as [|z0 pre IH]; intros z post out [e He].
  - exists [], [], [], e; repeat split; [constructor|].
    cbn [app]; rewrite (print_zones_cons_fail _ _ _ _ He); now rewrite app_nil_r.
  - destruct (zone_outcome z0) as [ln0|e0] eqn:H0.
    + simpl app; rewrite (print_zones_cons_ok _ _ _ _ H0).
      destruct (IH z post (out ++ render [ln0]) (ex_intro _ e He))
        as (pre1 & pre2 & lns & e' & Hpre & Hf & Hp).
      exists (z0 :: pre1), pre2, (ln0 :: lns), e'; repeat split.
      * cbn [app]; now f_equal.
      * now constructor.
      * rewrite Hp, <- app_assoc, <- render_app; reflexivity.
    + exists [], (z0 :: pre), [], e0; repeat split; [constructor|].
      simpl app; rewrite (print_zones_cons_fail _ _ _ _ H0).
      now rewrite app_nil_r.
Qed.

Lemma headers_clean : clean header1 = true /\ clean header2 = true.
Proof. split; reflexivity. Qed.

Lemma main_body_loaded : forall b v out, json_loads b = Ok v ->
  main_body (ProcExit 0 b) out =
  match py_iter v with
  | Ok zs => print_zones zs (out ++ render [header1; header2])
  | Raise e => (out ++ render [header1; header2], Raise e)
  end.
Proof.
  intros b v out H; unfold main_body, bind, lift.
  change (check_output (ProcExit 0 b)) with (Ok (A := bytes) b); cbv iota beta.
  rewrite H, (print_clean header1), (print_clean header2) by reflexivity.
  rewrite <- app_assoc, <- render_app; cbv iota beta.
  destruct (py_iter v); reflexivity.
Qed.

Lemma main_body_load_fail : forall b e out, json_loads b = Raise e ->
  main_body (ProcExit 0 b) out = (out, Raise e).
Proof. intros b e out H; unfold main_body, bind, lift; simpl; now rewrite H. Qed.

Lemma run_fail : forall p e out, main_body p [] = (out, Raise e) ->
  clean (error_line e) = true -> run p = (out ++ render [error_line e], 1).
Proof.
  intros p e out H Hc; unfold run, run_from; rewrite H.
  unfold error_line in Hc |- *; now rewrite print_clean by exact Hc.
Qed.

Lemma run_ok : forall p out, main_body p [] = (out, Ok tt) -> run p = (out, 0).
Proof. intros p out H; unfold run, run_from; now rewrite H. Qed.

Lemma error_line_clean : forall e, clean (exc_str e) = true -> clean (error_line e) = true.
Proof.
  intros e H; unfold error_line, clean in *; rewrite forallb_app, H; reflexivity.
Qed.

Lemma appends_ret : forall A (x : A), Appends (ret x).
Proof. intros A x out; unfold ret; simpl; now rewrite app_nil_r. Qed.

Lemma appends_lift : forall A (r : result A), Appends (lift r).
Proof. intros A r out; unfold lift; simpl; now rewrite app_nil_r. Qed.

Lemma appends_print : forall s, Appends (print s).
Proof.
  intros s out; unfold print; destruct (encodable s); simpl;
    now rewrite ?app_nil_r.
Qed.

Lemma appends_bind : forall A B (m : M A) (k : A -> M B),
  Appends m -> (forall x, Appends (k x)) -> Appends (bind m k).
Proof.
  intros A B m k Hm Hk out; unfold bind.
  rewrite (Hm out); destruct (m []) as [d [x|e]]; simpl.
  - rewrite (Hk x (out ++ d)), (Hk x d); simpl; now rewrite app_assoc.
  - reflexivity.
Qed.

Lemma appends_print_zones : forall zs, Appends (print_zones zs).
Proof.
  induction zs as [|z zs IH]; simpl.
  - apply appends_ret.
  - apply appends_bind; [apply appends_lift|intros line].
    apply appends_bind; [apply appends_print|intros _; exact IH].
Qed.

Lemma appends_main_body : forall p, Appends (main_body p).
Proof.
  intros p; unfold main_body.
  repeat first [ apply appends_bind | apply appends_lift | apply appends_print
               | apply appends_print_zones | intros ].
Qed.

Lemma zone_record_line : forall d i n,
  dict_get d (t "id") = Some i -> dict_get d (t "name") = Some n ->
  record_line (PyDict d) = Ok (t "ID: " ++ py_str i ++ t " - Name: " ++ py_str n).
Proof. intros d i n Hi Hn; unfold record_line, getitem; now rewrite Hi, Hn. Qed.

Lemma zones_clean_lines : forall zones,
  Forall (fun z => exists ln, record_line z = Ok ln /\ clean ln = true) zones ->
  exists lns, Forall2 (fun z ln => record_line z = Ok ln) zones lns /\
              Forall2 (fun z ln => zone_outcome z = Ok ln) zones lns /\
              Forall (fun l => clean l = true) lns.
Proof.
  induction 1 as [|z zones [ln [Hr Hc]] _ [lns (H1 & H2 & H3)]].
  - exists []; repeat constructor.
  - exists (ln :: lns); repeat split; constructor; auto.
    unfold zone_outcome; rewrite Hr; simpl.
    now rewrite clean_encodable by exact Hc.
Qed.

(** ** The claims *)

(** C1 (as amended): for a body that [json.loads] loads (within its nesting
    and digit limits) as an array of N objects with [id] and [name], where no [str(id)] or [str(name)] holds a line feed or a lone
    surrogate, stdout is the two header lines followed by the N record
    lines in array order (2 + N lines) and the exit status is 0. *)
Theorem listing_clean_lines (b : bytes) (zones : list PyVal)
  (Hload : json_loads b = Ok (PyList zones))
  (Hshape : Forall (fun z => exists d i n, z = PyDict d /\
                      dict_get d (t "id") = Some i /\
                      dict_get d (t "name") = Some n) zones)
  (Hclean : Forall (fun z => forall ln, record_line z = Ok ln -> clean ln = true)
              zones) :
  exists lns,
    Forall2 (fun z ln => record_line z = Ok ln) zones lns /\
    run (ProcExit 0 b) = (render (header1 :: header2 :: lns), 0) /\
    lines (fst (run (ProcExit 0 b))) = header1 :: header2 :: lns /\
    List.length (lines (fst (run (ProcExit 0 b)))) = (2 + List.length zones)%nat.
Proof.
  assert (Hz : Forall (fun z => exists ln, record_line z = Ok ln /\ clean ln = true)
                 zones).
  { rewrite Forall_forall in *; intros z Hin.
    destruct (Hshape z Hin) as (d & i & n & -> & Hi & Hn).
    eexists; split; [apply zone_record_line; eauto|].
    apply (Hclean _ Hin); apply zone_record_line; auto. }
  destruct (zones_clean_lines _ Hz) as (lns & H1 & H2 & H3).
  assert (Hrun : run (ProcExit 0 b) = (render (header1 :: header2 :: lns), 0)).
  { apply run_ok; rewrite (main_body_loaded _ _ _ Hload); cbn [py_iter].
    rewrite (print_zones_all_ok _ _ _ H2), app_nil_l, <- render_app; reflexivity. }
  assert (Hl : lines (fst (run (ProcExit 0 b))) = header1 :: header2 :: lns).
  { rewrite Hrun; apply lines_render.
    repeat constructor; try (apply clean_no_newline; reflexivity).
    eapply Forall_impl; [|exact H3]; intros l Hc; now apply clean_no_newline. }
  exists lns; repeat split; auto.
  rewrite Hl; simpl; now rewrite (Forall2_length H1).
Qed.

(** C2 (as amended): a response body that [json.loads] rejects (text that is
    not JSON, nesting beyond the recursion limit, an int literal beyond the
    digit limit) gives one stdout line, [Error: ] followed by the exception's
    message, no header line, and exit status 1 (messages of exceptions are
    single printable lines). The constants [NaN], [Infinity] and [-Infinity]
    are not JSON but are accepted, so such a body prints the headers first. *)
Theorem invalid_json_error_only
  (Hmsg : forall e, clean (exc_str e) = true)
  (b : bytes) (Hbad : forall v, json_loads b <> Ok v) :
  exists e,
    json_loads b = Raise e /\
    run (ProcExit 0 b) = (render [error_line e], 1) /\
    lines (fst (run (ProcExit 0 b))) = [error_line e] /\
    ~ In header1 (lines (fst (run (ProcExit 0 b)))) /\
    ~ In header2 (lines (fst (run (ProcExit 0 b)))).
Proof.
  destruct (json_loads b) as [v|e] eqn:Hj; [exfalso; now apply (Hbad v)|].
  assert (Hrun : run (ProcExit 0 b) = (render [error_line e], 1)).
  { apply (run_fail _ _ []); [|now apply error_line_clean].
    now rewrite (main_body_load_fail _ _ _ Hj). }
  assert (Hl : lines (fst (run (ProcExit 0 b))) = [error_line e]).
  { rewrite Hrun; apply lines_render; constructor; [|constructor].
    now apply clean_no_newline, error_line_clean. }
  exists e; repeat split; auto; rewrite Hl; intros [H|[]];
    unfold error_line in H; vm_compute in H; discriminate H.
Qed.

(** C3 (as amended): a body that [json.loads] loads (within its nesting and
    digit limits) to a top-level value that is not an array is not rejected
    as such.  The two header lines are printed
    first; then an empty object or an empty string ends the run with
    status 0, and any other non-array value (number, boolean, null,
    non-empty object, non-empty string) fails in [iter] or in the first
    subscript, printing one [Error: ] line and exiting with status 1. *)
Theorem non_array_top_level
  (Hmsg : forall e, clean (exc_str e) = true)
  (b : bytes) (v : PyVal)
  (Hload : json_loads b = Ok v) (Hnot : forall l, v <> PyList l) :
  ((v = PyDict [] \/ v = PyStr []) ->
     run (ProcExit 0 b) = (render [header1; header2], 0)) /\
  (v <> PyDict [] -> v <> PyStr [] ->
     exists e, run (ProcExit 0 b) = (render [header1; header2; error_line e], 1)).
Proof.
  assert (Hfail : forall e,
    main_body (ProcExit 0 b) [] = (render [header1; header2], Raise e) ->
    run (ProcExit 0 b) = (render [header1; header2; error_line e], 1)).
  { intros e H; rewrite (run_fail _ _ _ H) by now apply error_line_clean.
    now rewrite <- render_app. }
  pose proof (main_body_loaded _ _ [] Hload) as Hmb; split.
  - intros [-> | ->]; apply run_ok; rewrite Hmb; reflexivity.
  - intros H1 H2; destruct v as [| | | |s|l|d]; cbn [py_iter] in Hmb.
    1-4: eexists; apply Hfail; exact Hmb.
    + destruct s as [|c s]; [contradiction|].
      eexists; apply Hfail; rewrite Hmb; cbn [map].
      rewrite (print_zones_cons_fail _ (TypeError_indices (t "str"))); reflexivity.
    + exfalso; now apply (Hnot l).
    + destruct d as [|[k x] d]; [contradiction|].
      eexists; apply Hfail; rewrite Hmb; cbn [map fst].
      rewrite (print_zones_cons_fail _ (TypeError_indices (t "str"))); reflexivity.
Qed.

(** C4 (as amended): if some element of the array that [json.loads] loads
    (within its nesting and digit limits) is an object without
    [id] or without [name], the run fails with status 1 and ends with one
    [Error: ] line; before it stdout holds the headers and the record
    lines of the elements that precede the first failing element, all of
    them before the offending one. *)
Theorem missing_key_fails
  (Hmsg : forall e, clean (exc_str e) = true)
  (b : bytes) (zones pre post : list PyVal) (z : PyVal)
  (Hload : json_loads b = Ok (PyList zones))
  (Hsplit : zones = pre ++ z :: post)
  (Hmiss : exists d, z = PyDict d /\
             (dict_get d (t "id") = None \/ dict_get d (t "name") = None)) :
  exists pre1 pre2 lns e,
    pre = pre1 ++ pre2 /\
    Forall2 (fun z ln => zone_outcome z = Ok ln) pre1 lns /\
    run (ProcExit 0 b) = (render (header1 :: header2 :: lns ++ [error_line e]), 1).
Proof.
  assert (Hz : exists e, zone_outcome z = Raise e).
  { destruct Hmiss as (d & -> & [Hi|Hn]).
    - exists (KeyError (t "id")); unfold zone_outcome, record_line, getitem.
      now rewrite Hi.
    - unfold zone_outcome, record_line, getitem.
      destruct (dict_get d (t "id")); simpl; [rewrite Hn; simpl|]; eauto. }
  destruct (print_zones_some_fail pre z post (render [header1; header2]) Hz)
    as (pre1 & pre2 & lns & e & Hpre & Hf & Hp).
  exists pre1, pre2, lns, e; repeat split; auto.
  rewrite (run_fail _ e (render [header1; header2] ++ render lns))
    by (try apply error_line_clean; auto;
        rewrite (main_body_loaded _ _ _ Hload), Hsplit; exact Hp).
  now rewrite <- !render_app.
Qed.

(** C5: if the elements before element k print their lines and element k
    fails (missing key, wrong type or an unprintable line), stdout holds
    the headers, the lines of elements 0 .. k-1 and the [Error: ] line,
    whatever the elements after k are, and the exit status is 1. *)
Theorem fail_fast_keeps_output
  (Hmsg : forall e, clean (exc_str e) = true)
  (b : bytes) (zones pre post : list PyVal) (z : PyVal) (lns : list text) (e : Exc)
  (Hload : json_loads b = Ok (PyList zones))
  (Hsplit : zones = pre ++ z :: post)
  (Hpre : Forall2 (fun z ln => zone_outcome z = Ok ln) pre lns)
  (Hz : zone_outcome z = Raise e) :
  run (ProcExit 0 b) = (render (header1 :: header2 :: lns ++ [error_line e]), 1).
Proof.
  rewrite (run_fail _ e (render [header1; header2] ++ render lns)).
  - now rewrite <- !render_app.
  - rewrite (main_body_loaded _ _ _ Hload), Hsplit; cbn [py_iter].
    rewrite app_nil_l, (print_zones_prefix _ _ _ _ Hpre).
    now rewrite (print_zones_cons_fail _ _ _ _ Hz).
  - now apply error_line_clean.
Qed.

(** C6: a non-zero exit status of curl is reported by the generic error
    path: one [Error: ] line and exit status 1. *)
Theorem curl_failure_error
  (Hmsg : forall e, clean (exc_str e) = true)
  (code : Z) (out : bytes) (Hcode : code <> 0) :
  run (ProcExit code out) = (render [error_line (CalledProcessError code out)], 1).
Proof.
  apply (run_fail _ _ []); [|now apply error_line_clean].
  unfold main_body, bind, lift; cbn [check_output].
  now rewrite (proj2 (Z.eqb_neq code 0) Hcode).
Qed.

(** C7: for an object with [id] and [name], the loop prints exactly
    [ID: ] ++ str(id) ++ [ - Name: ] ++ str(name) (or nothing, if print
    cannot encode it), and [str] of a string is the string itself. *)
Theorem record_line_format (d : list (text * PyVal)) (i n : PyVal)
  (Hi : dict_get d (t "id") = Some i) (Hn : dict_get d (t "name") = Some n) :
  let line := t "ID: " ++ py_str i ++ t " - Name: " ++ py_str n in
  record_line (PyDict d) = Ok line /\
  (forall rest out,
     print_zones (PyDict d :: rest) out =
     if encodable line then print_zones rest (out ++ line ++ [newline])
     else (out, Raise (UnicodeEncodeError line))) /\
  (forall s, py_str (PyStr s) = s).
Proof.
  intros line; assert (Hr : record_line (PyDict d) = Ok line)
    by (apply zone_record_line; auto).
  repeat split; auto; intros rest out.
  unfold print_zones; fold print_zones; unfold bind, lift, print.
  rewrite Hr; destruct (encodable line); reflexivity.
Qed.

(** C8: a run depends only on what curl returns: started twice with the
    same subprocess outcome, whatever is already on stdout, it appends the
    same text and exits with the same status. *)
Theorem run_deterministic (p : Proc) (out1 out2 : text) :
  exists d code, run_from out1 p = (out1 ++ d, code) /\
                 run_from out2 p = (out2 ++ d, code).
Proof.
  assert (H : forall out, run_from out p = (out ++ fst (run p), snd (run p))).
  { intros out; unfold run, run_from.
    rewrite (appends_main_body p out).
    destruct (main_body p []) as [d [x|e]]; simpl; [reflexivity|].
    rewrite (appends_print _ (out ++ d)), (appends_print _ d); simpl.
    now rewrite app_assoc. }
  exists (fst (run p)), (snd (run p)); now rewrite !H.
Qed.

(** C9: the bodies [{}] and the empty JSON string (two double quotes) are valid JSON that is not an array, and
    the run prints exactly the two header lines and exits with status 0. *)
Theorem empty_object_or_string_succeeds :
  json_loads (t "{}") = Ok (PyDict []) /\
  run (ProcExit 0 (t "{}")) = (render [header1; header2], 0) /\
  json_loads [34; 34] = Ok (PyStr []) /\
  run (ProcExit 0 [34; 34]) = (render [header1; header2], 0) /\
  lines (render [header1; header2]) = [header1; header2].
Proof.
  repeat split; reflexivity.
Qed.

(** C10: fields other than [id] and [name] play no part: the line of an
    object, and what the loop does with it, are those of the object
    holding only its [id] and [name]. *)
Theorem extra_fields_ignored (d : list (text * PyVal)) (i n : PyVal)
  (Hi : dict_get d (t "id") = Some i) (Hn : dict_get d (t "name") = Some n) :
  record_line (PyDict d) = record_line (PyDict [(t "id", i); (t "name", n)]) /\
  zone_outcome (PyDict d) = zone_outcome (PyDict [(t "id", i); (t "name", n)]) /\
  (forall rest out,
     print_zones (PyDict d :: rest) out =
     print_zones (PyDict [(t "id", i); (t "name", n)] :: rest) out).
Proof.
  assert (H : record_line (PyDict d) = record_line (PyDict [(t "id", i); (t "name", n)])).
  { rewrite (zone_record_line _ _ _ Hi Hn).
    symmetry; apply zone_record_line; reflexivity. }
  repeat split; auto.
  - unfold zone_outcome; now rewrite H.
  - intros rest out; unfold print_zones; fold print_zones; unfold bind, lift.
    now rewrite H.
Qed.

(** ** Further properties of the script *)

Lemma text_eqb_eq : forall a b, text_eqb a b = true <-> a = b.
Proof.
  induction a as [|x a IH]; destruct b as [|y b]; simpl; split; intros H;
    try discriminate; auto.
  - apply andb_true_iff in H as [H1 H2]; apply Z.eqb_eq in H1.
    apply IH in H2; now subst.
  - inversion H; subst; now rewrite Z.eqb_refl, text_eqb_refl.
Qed.

Lemma text_eqb_sym : forall a b, text_eqb a b = text_eqb b a.
Proof.
  intros a b; destruct (text_eqb a b) eqn:E1, (text_eqb b a) eqn:E2; auto.
  - apply text_eqb_eq in E1; subst; now rewrite text_eqb_refl in E2.
  - apply text_eqb_eq in E2; subst; now rewrite text_eqb_refl in E1.
Qed.

Lemma dict_get_set : forall d k' v k,
  dict_get (dict_set d k' v) k = if text_eqb k k' then Some v else dict_get d k.
Proof.
  induction d as [|[k1 v1] d IH]; intros k' v k; simpl.
  - destruct (text_eqb k k'); reflexivity.
  - destruct (text_eqb k' k1) eqn:E1; simpl.
    + apply text_eqb_eq in E1; subst; destruct (text_eqb k k1); reflexivity.
    + rewrite IH; destruct (text_eqb k k1) eqn:E2, (text_eqb k k') eqn:E3; auto.
      apply text_eqb_eq in E2; apply text_eqb_eq in E3; subst.
      now rewrite text_eqb_refl in E1.
Qed.

Lemma keys_dict_set : forall d k v,
  map fst (dict_set d k v) =
  if existsb (text_eqb k) (map fst d) then map fst d else map fst d ++ [k].
Proof.
  induction d as [|[k1 v1] d IH]; intros k v; simpl; [reflexivity|].
  destruct (text_eqb k k1) eqn:E; simpl; [reflexivity|].
  rewrite IH; destruct (existsb (text_eqb k) (map fst d)); reflexivity.
Qed.

Lemma nodup_dict_set : forall d k v,
  NoDup (map fst d) -> NoDup (map fst (dict_set d k v)).
Proof.
  intros d k v H; rewrite keys_dict_set.
  destruct (existsb (text_eqb k) (map fst d)) eqn:E; [exact H|].
  apply NoDup_app; [exact H|repeat constructor; auto|].
  intros x Hx [<-|[]].
  assert (Hin : existsb (text_eqb k) (map fst d) = true)
    by (apply existsb_exists; exists k; split; [exact Hx|apply text_eqb_refl]).
  congruence.
Qed.

Lemma fold_dict_set : forall ps d k,
  NoDup (map fst d) ->
  NoDup (map fst (fold_left (fun d kv => dict_set d (fst kv) (snd kv)) ps d)) /\
  dict_get (fold_left (fun d kv => dict_set d (fst kv) (snd kv)) ps d) k =
  match dict_last ps k with Some x => Some x | None => dict_get d k end.
Proof.
  induction ps as [|[k1 v1] ps IH]; intros d k Hd; simpl; [auto|].
  destruct (IH (dict_set d k1 v1) k (nodup_dict_set _ _ _ Hd)) as [H1 H2].
  split; [exact H1|]; rewrite H2, dict_get_set.
  destruct (dict_last ps k); [reflexivity|]; destruct (text_eqb k k1); reflexivity.
Qed.

(** X: the dict [json.loads] builds from the members of an object holds
    each key once, and a subscript [obj[k]] gives the value of the last
    member with key [k]. *)
Theorem json_object_last_wins (ps : list (text * PyVal)) (k : text) :
  NoDup (map fst (dict_of_pairs ps)) /\
  dict_get (dict_of_pairs ps) k = dict_last ps k.
Proof.
  destruct (fold_dict_set ps [] k (NoDup_nil _)) as [H1 H2].
  split; [exact H1|]; unfold dict_of_pairs; rewrite H2.
  destruct (dict_last ps k); reflexivity.
Qed.

(** X: when curl cannot be started, stdout holds only the [Error: ] line
    and the exit status is 1. *)
Theorem launch_failure_error
  (Hmsg : forall e, clean (exc_str e) = true) :
  run ProcLaunchFailure = (render [error_line OSError_launch], 1).
Proof. apply (run_fail _ _ []); [reflexivity|now apply error_line_clean]. Qed.

Lemma print_zones_ok_inv : forall zs o o',
  print_zones zs o = (o', Ok tt) ->
  exists lns, Forall2 (fun z ln => zone_outcome z = Ok ln) zs lns /\
              o' = o ++ render lns.
Proof.
  induction zs as [|z zs IH]; intros o o' H.
  - inversion H; exists []; split; [constructor|now rewrite app_nil_r].
  - destruct (zone_outcome z) as [ln|e] eqn:Hz.
    + rewrite (print_zones_cons_ok _ _ _ _ Hz) in H.
      destruct (IH _ _ H) as (lns & Hf & ->).
      exists (ln :: lns); split; [now constructor|].
      now rewrite <- app_assoc, <- render_app.
    + rewrite (print_zones_cons_fail _ _ _ _ Hz) in H; discriminate.
Qed.

Lemma print_zones_fail_inv : forall zs o o' e,
  print_zones zs o = (o', Raise e) ->
  exists pre post lns, zs = pre ++ post /\
    Forall2 (fun z ln => zone_outcome z = Ok ln) pre lns /\
    o' = o ++ render lns.
Proof.
  induction zs as [|z zs IH]; intros o o' e H; [discriminate|].
  destruct (zone_outcome z) as [ln|e'] eqn:Hz.
  - rewrite (print_zones_cons_ok _ _ _ _ Hz) in H.
    destruct (IH _ _ _ H) as (pre & post & lns & -> & Hf & ->).
    exists (z :: pre), post, (ln :: lns); repeat split; [now constructor|].
    now rewrite <- app_assoc, <- render_app.
  - rewrite (print_zones_cons_fail _ _ _ _ Hz) in H; inversion H; subst.
    exists [], (z :: zs), []; repeat split; [constructor|now rewrite app_nil_r].
Qed.

(** X: the run exits with status 0 exactly when curl exits with 0, its
    output loads, the loaded value is iterable and every element gives a
    printable line; stdout is then the two headers and those lines. *)
Theorem run_success_iff (p : Proc) (out : text) :
  run p = (out, 0) <->
  exists b v zs lns,
    p = ProcExit 0 b /\ json_loads b = Ok v /\ py_iter v = Ok zs /\
    Forall2 (fun z ln => zone_outcome z = Ok ln) zs lns /\
    out = render (header1 :: header2 :: lns).
Proof.
  split.
  - unfold run, run_from; destruct (main_body p []) as [o [x|e]] eqn:Hm;
      intros H; inversion H; subst; clear H.
    destruct p as [|c b]; [discriminate|].
    destruct (Z.eqb_spec c 0) as [->|Hc].
    2:{ unfold main_body, bind, lift in Hm; cbn [check_output] in Hm.
        rewrite (proj2 (Z.eqb_neq c 0) Hc) in Hm; discriminate. }
    destruct (json_loads b) as [v|e] eqn:Hj.
    2:{ rewrite (main_body_load_fail _ _ _ Hj) in Hm; discriminate. }
    rewrite (main_body_loaded _ _ _ Hj) in Hm.
    destruct (py_iter v) as [zs|e] eqn:Hi; [|discriminate].
    destruct x; destruct (print_zones_ok_inv _ _ _ Hm) as (lns & Hf & ->).
    exists b, v, zs, lns; repeat split; auto;
      now rewrite app_nil_l, <- render_app.
  - intros (b & v & zs & lns & -> & Hj & Hi & Hf & ->); apply run_ok.
    rewrite (main_body_loaded _ _ _ Hj), Hi, (print_zones_all_ok _ _ _ Hf).
    now rewrite app_nil_l, <- render_app.
Qed.

(** X: a run that exits with status 1 ends with exactly one [Error: ]
    line.  Either nothing precedes it (curl failed to start, exited
    non-zero, or its output did not load), or the two headers and the lines
    of the first elements of the loaded value precede it. *)
Theorem run_failure_shape
  (Hmsg : forall e, clean (exc_str e) = true)
  (p : Proc) (out : text) (H : run p = (out, 1)) :
  exists e,
    (out = render [error_line e] /\
     (p = ProcLaunchFailure \/
      exists c b, p = ProcExit c b /\ (c <> 0 \/ json_loads b = Raise e))) \/
    (exists b v pre post lns,
       p = ProcExit 0 b /\ json_loads b = Ok v /\
       (py_iter v = Ok (pre ++ post) \/ (py_iter v = Raise e /\ pre = [])) /\
       Forall2 (fun z ln => zone_outcome z = Ok ln) pre lns /\
       out = render (header1 :: header2 :: lns ++ [error_line e])).
Proof.
  revert H; unfold run, run_from.
  destruct (main_body p []) as [o [x|e]] eqn:Hm; intros H; inversion H; subst;
    clear H.
  rewrite print_clean by now apply error_line_clean.
  exists e; destruct p as [|c b].
  - left; inversion Hm; subst; split; [reflexivity|now left].
  - destruct (Z.eqb_spec c 0) as [->|Hc].
    2:{ left; unfold main_body, bind, lift in Hm; cbn [check_output] in Hm.
        rewrite (proj2 (Z.eqb_neq c 0) Hc) in Hm; inversion Hm; subst.
        split; [reflexivity|right; exists c, b; auto]. }
    destruct (json_loads b) as [v|e'] eqn:Hj.
    2:{ left; rewrite (main_body_load_fail _ _ _ Hj) in Hm; inversion Hm; subst.
        split; [reflexivity|right; exists 0, b; auto]. }
    right; rewrite (main_body_loaded _ _ _ Hj) in Hm.
    destruct (py_iter v) as [zs|e'] eqn:Hi.
    + destruct (print_zones_fail_inv _ _ _ _ Hm) as (pre & post & lns & -> & Hf & ->).
      exists b, v, pre, post, lns; repeat split; auto;
        now rewrite app_nil_l, <- !render_app.
    + inversion Hm; subst; exists b, v, [], [], []; repeat split; auto;
        now rewrite app_nil_l, <- !render_app.
Qed.

(** X: the loop over a concatenation is the loop over the first part, then,
    if that part printed all its lines, the loop over the second part. *)
Theorem print_zones_app (zs1 zs2 : list PyVal) (out : text) :
  print_zones (zs1 ++ zs2) out =
  match print_zones zs1 out with
  | (o, Ok _) => print_zones zs2 o
  | (o, Raise e) => (o, Raise e)
  end.
Proof.
  revert out; induction zs1 as [|z zs1 IH]; intros out; [reflexivity|].
  destruct (zone_outcome z) as [ln|e] eqn:Hz.
  - cbn [app]; rewrite !(print_zones_cons_ok _ _ _ _ Hz); apply IH.
  - cbn [app]; now rewrite !(print_zones_cons_fail _ _ _ _ Hz).
Qed.

(** Induction over Python values, with the hypothesis on every item of a
    list and every value of a dict. *)
Lemma PyVal_ind_nested (P : PyVal -> Prop)
  (HNone : P PyNone) (HBool : forall b, P (PyBool b)) (HInt : forall z, P (PyInt z))
  (HFloat : forall l, P (PyFloat l)) (HStr : forall s, P (PyStr s))
  (HList : forall l, Forall P l -> P (PyList l))
  (HDict : forall d, Forall (fun kv => P (snd kv)) d -> P (PyDict d)) :
  forall v, P v.
Proof.
  fix IH 1; intros [|b|z|f|s|l|d];
    [exact HNone|apply HBool|apply HInt|apply HFloat|apply HStr| |].
  - apply HList; revert l; fix go 1; intros [|x l]; constructor; [apply IH|apply go].
  - apply HDict; revert d; fix go 1; intros [|[k x] d]; constructor;
      [apply IH|apply go].
Qed.

Lemma clean_app : forall a b, clean (a ++ b) = clean a && clean b.
Proof. intros; unfold clean; apply forallb_app. Qed.

Lemma clean_cons : forall c l, clean (c :: l) = clean [c] && clean l.
Proof. intros; unfold clean; simpl; now rewrite andb_true_r. Qed.

Lemma clean_single : forall c,
  (0 <= c <= 9 \/ 11 <= c < 55296 \/ 57343 < c) -> clean [c] = true.
Proof.
  intros c Hc; unfold clean, is_surrogate; simpl.
  destruct (Z.eqb_spec c newline); unfold newline in *; [lia|].
  destruct (Z.leb_spec 55296 c), (Z.leb_spec c 57343); simpl; auto; lia.
Qed.

Lemma clean_concat : forall ls, Forall (fun l => clean l = true) ls ->
  clean (List.concat ls) = true.
Proof.
  induction 1; [reflexivity|]; simpl; rewrite clean_app; now apply andb_true_iff.
Qed.

Lemma hexn_clean : forall n v, clean (hexn n v) = true.
Proof.
  induction n as [|n IH]; intros v; [reflexivity|]; simpl.
  rewrite clean_app, IH; simpl; apply clean_single; unfold hex_digit.
  pose proof (Z.mod_pos_bound v 16 ltac:(lia)).
  destruct (Z.ltb_spec (v mod 16) 10); lia.
Qed.

Lemma repr_char_clean : forall q c, (q = 34 \/ q = 39) -> clean (repr_char q c) = true.
Proof.
  intros q c Hq; unfold repr_char.
  destruct ((c =? q) || (c =? 92)) eqn:E1.
  { apply orb_true_iff in E1 as [E|E]; apply Z.eqb_eq in E; subst;
      [destruct Hq; subst|]; reflexivity. }
  destruct (c =? 9); [reflexivity|].
  destruct (Z.eqb_spec c 10); [reflexivity|].
  destruct (c =? 13); [reflexivity|].
  destruct ((c <? 32) || (c =? 127)) eqn:E2.
  { rewrite clean_cons, (clean_cons 120), hexn_clean; reflexivity. }
  apply orb_false_iff in E2 as [E2 E3].
  apply Z.ltb_ge in E2; apply Z.eqb_neq in E3.
  destruct (Z.ltb_spec c 127); [apply clean_single; lia|].
  destruct (uni_printable c && negb (is_surrogate c)) eqn:E4.
  { apply andb_true_iff in E4 as [_ E4]; unfold is_surrogate in E4.
    apply clean_single.
    destruct (Z.leb_spec 55296 c), (Z.leb_spec c 57343); simpl in E4;
      try discriminate; lia. }
  destruct (c <=? 255); [|destruct (c <=? 65535)];
    rewrite clean_cons, (clean_cons _ (hexn _ _)), hexn_clean; reflexivity.
Qed.

Lemma repr_str_clean : forall s, clean (repr_str s) = true.
Proof.
  intros s; unfold repr_str.
  set (q := if existsb (Z.eqb 39) s && negb (existsb (Z.eqb 34) s) then 34 else 39).
  assert (Hq : q = 34 \/ q = 39) by (unfold q; destruct (_ && _); auto).
  rewrite clean_cons, clean_app, clean_concat.
  - destruct Hq as [-> | ->]; reflexivity.
  - apply Forall_map, Forall_forall; intros c _; now apply repr_char_clean.
Qed.

Lemma dec_digits_clean : forall f n acc, 0 <= n -> clean acc = true ->
  clean (dec_digits f n acc) = true.
Proof.
  induction f as [|f IH]; intros n acc Hn Hacc; cbn [dec_digits]; [exact Hacc|].
  destruct (Z.ltb_spec n 10).
  - rewrite clean_cons, Hacc, clean_single by lia; reflexivity.
  - apply IH; [apply Z.div_pos; lia|].
    pose proof (Z.mod_pos_bound n 10 ltac:(lia)).
    rewrite clean_cons, Hacc, clean_single by lia; reflexivity.
Qed.

Lemma int_str_clean : forall z, clean (int_str z) = true.
Proof.
  intros [|p|p]; unfold int_str; [reflexivity| |rewrite clean_cons];
    rewrite dec_digits_clean by (reflexivity || lia); reflexivity.
Qed.

Lemma join_clean : forall sep xs, clean sep = true ->
  Forall (fun x => clean x = true) xs -> clean (join sep xs) = true.
Proof.
  intros sep xs Hs; induction 1 as [|x xs Hx Hxs IH]; [reflexivity|].
  destruct xs as [|y ys]; [exact Hx|].
  change (clean (x ++ sep ++ join sep (y :: ys)) = true).
  now rewrite !clean_app, Hx, Hs, IH.
Qed.

Lemma py_repr_clean : (forall l, clean (float_str l) = true) ->
  forall v, clean (py_repr v) = true.
Proof.
  intros Hf; apply PyVal_ind_nested; intros; cbn [py_repr].
  - reflexivity.
  - destruct b; reflexivity.
  - apply int_str_clean.
  - apply Hf.
  - apply repr_str_clean.
  - rewrite clean_app, clean_app, join_clean by (reflexivity || now apply Forall_map).
    reflexivity.
  - rewrite clean_app, clean_app, join_clean; [reflexivity|reflexivity|].
    apply Forall_map; eapply Forall_impl; [|exact H].
    intros [k x] Hx; cbv beta in *; cbn [fst snd] in *.
    now rewrite !clean_app, repr_str_clean, Hx.
Qed.

(** X: only an [id] or [name] that is itself a string can make a record
    line span several stdout lines or fail to print: [str] of a number,
    boolean, null, list or dict is one printable line (repr escapes line
    feeds and surrogates inside nested strings), so an object whose [id]
    and [name] are not strings always gives a clean record line. *)
Theorem non_string_fields_clean_line
  (Hfloat : forall l, clean (float_str l) = true) :
  (forall v, (forall s, v <> PyStr s) -> clean (py_str v) = true) /\
  (forall d i n, dict_get d (t "id") = Some i -> dict_get d (t "name") = Some n ->
     (forall s, i <> PyStr s) -> (forall s, n <> PyStr s) ->
     exists ln, zone_outcome (PyDict d) = Ok ln /\ clean ln = true).
Proof.
  assert (Hv : forall v, (forall s, v <> PyStr s) -> clean (py_str v) = true).
  { intros v Hv; destruct v as [|b|z|f|s|l|d]; try (exact (py_repr_clean Hfloat _)).
    exfalso; now apply (Hv s). }
  split; [exact Hv|].
  intros d i n Hi Hn Hi' Hn'.
  set (ln := t "ID: " ++ py_str i ++ t " - Name: " ++ py_str n).
  assert (Hc : clean ln = true)
    by (unfold ln; now rewrite !clean_app, Hv, Hv by assumption).
  exists ln; split; [|exact Hc].
  unfold zone_outcome; rewrite (zone_record_line _ _ _ Hi Hn); fold ln.
  cbn [rbind]; now rewrite (clean_encodable _ Hc).
Qed.

(** *** Integers: [str] and the scanner *)

Lemma digits_value_fold : forall l a,
  fold_left (fun acc c => acc * 10 + (c - 48)) l a
  = a * 10 ^ Z.of_nat (List.length l) + digits_value l.
Proof.
  induction l as [|c l IH]; intros a; [unfold digits_value; simpl; lia|].
  unfold digits_value; cbn [fold_left List.length]; rewrite !IH.
  rewrite Nat2Z.inj_succ, Z.pow_succ_r by lia; ring.
Qed.

Lemma digits_value_snoc : forall l d,
  digits_value (l ++ [d]) = digits_value l * 10 + (d - 48).
Proof.
  intros l d; unfold digits_value at 1; rewrite fold_left_app.
  cbn [fold_left]; fold (digits_value l); reflexivity.
Qed.

Lemma pos_lt_size : forall p, Zpos p < 2 ^ Z.of_nat (Pos.size_nat p).
Proof.
  induction p as [p IH|p IH|]; cbn [Pos.size_nat]; [| |reflexivity].
  - rewrite Pos2Z.inj_xI, Nat2Z.inj_succ, Z.pow_succ_r by lia; lia.
  - rewrite Pos2Z.inj_xO, Nat2Z.inj_succ, Z.pow_succ_r by lia; lia.
Qed.

Lemma dec_digits_spec : forall f n acc, 0 < n < 10 ^ Z.of_nat f ->
  exists c ds, dec_digits f n acc = c :: ds ++ acc /\ 49 <= c <= 57 /\
    Forall (fun d => is_digit d = true) ds /\ digits_value (c :: ds) = n.
Proof.
  induction f as [|f IH]; intros n acc Hn; [simpl in Hn; lia|].
  rewrite Nat2Z.inj_succ, Z.pow_succ_r in Hn by lia; cbn [dec_digits].
  destruct (Z.ltb_spec n 10).
  - exists (48 + n), []; repeat split; try lia; [constructor|].
    unfold digits_value; cbn [fold_left]; lia.
  - destruct (IH (n / 10) (48 + n mod 10 :: acc)) as (c & ds & Hd & Hc & Hds & Hv).
    { split; [apply Z.div_str_pos; lia|apply Z.div_lt_upper_bound; lia]. }
    pose proof (Z.mod_pos_bound n 10 ltac:(lia)).
    exists c, (ds ++ [48 + n mod 10]); split; [|split; [exact Hc|split]].
    + rewrite Hd, <- app_assoc; reflexivity.
    + apply Forall_app; split; auto; constructor; [|constructor].
      unfold is_digit, in_range; apply andb_true_iff; split; apply Z.leb_le; lia.
    + change (c :: ds ++ [48 + n mod 10]) with ((c :: ds) ++ [48 + n mod 10]).
      rewrite digits_value_snoc, Hv.
      pose proof (Z.div_mod n 10 ltac:(lia)); lia.
Qed.

(** [str] of a non-zero integer: an optional minus sign, then a digit 1-9
    and more digits, whose value is the magnitude. *)
Lemma int_str_shape : forall z, z <> 0 ->
  exists c ds, int_str z = (if z <? 0 then [45] else []) ++ c :: ds /\
    49 <= c <= 57 /\ Forall (fun d => is_digit d = true) ds /\
    digits_value (c :: ds) = Z.abs z.
Proof.
  intros [|p|p] Hz; [congruence| |];
    (destruct (dec_digits_spec (Pos.size_nat p) (Zpos p) []) as (c & ds & Hd & H);
     [split; [lia|];
      eapply Z.lt_le_trans; [apply pos_lt_size|];
      apply Z.pow_le_mono_l; lia|]);
    exists c, ds; unfold int_str; rewrite Hd, app_nil_r; simpl; auto.
Qed.

(** Settles comparisons of a bounded integer with constants. *)
Ltac zcmp :=
  repeat match goal with
  | |- context [Z.eqb ?a ?b] =>
      destruct (Z.eqb_spec a b); [exfalso; lia|]
  | |- context [Z.leb ?a ?b] =>
      destruct (Z.leb_spec a b); [|exfalso; lia]
  end.

Lemma digits_len_all : forall l, Forall (fun d => is_digit d = true) l ->
  digits_len l = List.length l.
Proof. induction 1 as [|d l Hd _ IH]; cbn; [reflexivity|]; rewrite Hd, IH; reflexivity. Qed.

(** The integer branch of the number scanner on an optional minus and a
    digit run without leading zero: [ValueError] over the digit limit, the
    integer otherwise. *)
Lemma match_number_int : forall (neg : bool) c ds, 49 <= c <= 57 ->
  Forall (fun d => is_digit d = true) ds ->
  let s := (if neg then [45] else []) ++ c :: ds in
  let n := Z.of_nat (S (List.length ds)) in
  match_number int_max_str_digits s 0 =
  Some (if (0 <? int_max_str_digits) && (int_max_str_digits <? n)
        then Raise (ValueError_int_digits int_max_str_digits n)
        else Ok (PyInt (if neg then - digits_value (c :: ds)
                        else digits_value (c :: ds)), List.length s)).
Proof.
  intros neg c ds Hc Hds s n; subst s n.
  assert (Hl : digits_len (c :: ds) = S (List.length ds)).
  { rewrite digits_len_all; [reflexivity|constructor; auto].
    unfold is_digit, in_range; zcmp; reflexivity. }
  assert (Hn : nth_error ds (List.length ds) = None) by (apply nth_error_None; lia).
  assert (Hdc : is_digit c = true) by (unfold is_digit, in_range; zcmp; reflexivity).
  destruct neg; unfold match_number, char_at, digit_at, sublist;
    cbn -[digits_len digits_value is_digit]; zcmp;
    cbn -[digits_len digits_value is_digit]; zcmp; rewrite Hdc, Hl;
    do 4 (cbn -[digits_len digits_value is_digit]; rewrite ?Hn);
    rewrite ?firstn_all, ?Nat.sub_0_r, ?firstn_all.
  all: destruct (_ && _); reflexivity.
Qed.

Lemma scan_once_int : forall f depth (neg : bool) c ds, 49 <= c <= 57 ->
  Forall (fun d => is_digit d = true) ds ->
  let s := (if neg then [45] else []) ++ c :: ds in
  let n := Z.of_nat (S (List.length ds)) in
  scan_once max_depth int_max_str_digits (S f) depth s 0 =
  if (0 <? int_max_str_digits) && (int_max_str_digits <? n)
  then Raise (ValueError_int_digits int_max_str_digits n)
  else Ok (PyInt (if neg then - digits_value (c :: ds) else digits_value (c :: ds)),
           List.length s).
Proof.
  intros f depth neg c ds Hc Hds s n.
  pose proof (match_number_int neg c ds Hc Hds) as Hm; fold s n in Hm |- *; subst s n.
  destruct neg; cbn -[match_number scanstring parse_members parse_elems skip_ws t];
    repeat match goal with
    | |- context [t ?w] => let v := eval vm_compute in (t w) in change (t w) with v
    end; zcmp;
    cbn -[match_number scanstring parse_members parse_elems skip_ws digits_value]; zcmp;
    cbn -[match_number scanstring parse_members parse_elems skip_ws digits_value];
    cbn [app] in Hm; rewrite Hm; reflexivity.
Qed.

Lemma int_str_sign (z : Z) :
  int_str z = (if z <? 0 then [45] else []) ++ int_str (Z.abs z).
Proof. destruct z; reflexivity. Qed.

(** X: [json.loads] of the decimal text [str(z)] of an integer gives back
    [z] when the text has at most [int_max_str_digits] digits (or the limit
    is off), and raises [ValueError] when it has more. *)
Theorem int_str_round_trip (z : Z) :
  let n := Z.of_nat (List.length (int_str (Z.abs z))) in
  json_decode max_depth int_max_str_digits (int_str z) =
  if (0 <? int_max_str_digits) && (int_max_str_digits <? n)
  then Raise (ValueError_int_digits int_max_str_digits n)
  else Ok (PyInt z).
Proof.
  intros n; subst n.
  destruct (Z.eq_dec z 0) as [->|Hz].
  { destruct int_max_str_digits as [|[p|p|]|p]; reflexivity. }
  rewrite (int_str_sign z).
  destruct (int_str_shape (Z.abs z)) as (c & ds & Hs & Hc & Hds & Hv); [lia|].
  replace (Z.abs z <? 0) with false in Hs by (symmetry; apply Z.ltb_ge; lia).
  rewrite Hs; cbn [app List.length].
  pose proof (scan_once_int
                (S (2 * List.length ((if z <? 0 then [45] else []) ++ c :: ds)))
                O (z <? 0) c ds Hc Hds) as Hsc; cbv zeta in Hsc.
  assert (Hw : skip_ws ((if z <? 0 then [45] else []) ++ c :: ds) 0 = O).
  { unfold skip_ws; destruct (z <? 0); cbn [ws_len skipn app Nat.add]; unfold is_ws; zcmp;
    reflexivity. }
  unfold json_decode; rewrite Hw, Hsc.
  destruct ((0 <? int_max_str_digits) && (int_max_str_digits <? Z.of_nat (S (List.length ds))));
    [reflexivity|].
  unfold skip_ws; rewrite skipn_all, Nat.add_0_r, Nat.eqb_refl; cbn [ws_len].
  rewrite Hv; destruct (Z.ltb_spec z 0); f_equal; f_equal; lia.
Qed.

(** *** The ints [json.loads] returns fit [str]'s digit limit *)

Lemma digits_value_cons : forall c l,
  digits_value (c :: l) = (c - 48) * 10 ^ Z.of_nat (List.length l) + digits_value l.
Proof.
  intros c l; unfold digits_value at 1; cbn [fold_left].
  rewrite digits_value_fold; ring.
Qed.

Lemma digits_value_bound : forall l, Forall (fun d => is_digit d = true) l ->
  0 <= digits_value l < 10 ^ Z.of_nat (List.length l).
Proof.
  induction 1 as [|c l Hc _ IH]; [unfold digits_value; simpl; lia|].
  rewrite digits_value_cons; cbn [List.length]; rewrite Nat2Z.inj_succ, Z.pow_succ_r by lia.
  unfold is_digit, in_range in Hc; apply andb_true_iff in Hc;
    destruct Hc as [H1 H2]; apply Z.leb_le in H1, H2; nia.
Qed.

Lemma int_str_length_bound : forall n k, 0 <= n < 10 ^ Z.of_nat k -> (1 <= k)%nat ->
  (List.length (int_str n) <= k)%nat.
Proof.
  intros n k Hn Hk; destruct (Z.eq_dec n 0) as [->|Hz]; [simpl; lia|].
  destruct (int_str_shape n Hz) as (c & ds & Hs & Hc & Hds & Hv).
  replace (n <? 0) with false in Hs by (symmetry; apply Z.ltb_ge; lia).
  rewrite Hs; cbn [app List.length].
  rewrite digits_value_cons in Hv.
  pose proof (digits_value_bound ds Hds).
  destruct (Nat.lt_ge_cases (List.length ds) k) as [|Hge]; [lia|].
  exfalso; assert (10 ^ Z.of_nat k <= 10 ^ Z.of_nat (List.length ds))
    by (apply Z.pow_le_mono_r; lia).
  assert (0 <= 10 ^ Z.of_nat (List.length ds)) by (apply Z.pow_nonneg; lia).
  nia.
Qed.

Lemma skipn_nth : forall (s : text) i c, nth_error s i = Some c ->
  skipn i s = c :: skipn (S i) s.
Proof.
  induction s as [|x s IH]; intros [|i] c H; cbn in *; try discriminate.
  - now inversion H.
  - now apply IH.
Qed.

Lemma firstn_digits_len : forall r,
  Forall (fun d => is_digit d = true) (firstn (digits_len r) r) /\
  List.length (firstn (digits_len r) r) = digits_len r.
Proof.
  induction r as [|c r IH]; [split; [constructor|reflexivity]|].
  cbn [digits_len]; destruct (is_digit c) eqn:Hc; [|split; [constructor|reflexivity]].
  cbn [firstn List.length]; destruct IH; split; [constructor|]; auto.
Qed.

Lemma match_number_ints : forall s start v j,
  match_number int_max_str_digits s start = Some (Ok (v, j)) ->
  Forall str_int_within_limit (py_ints v).
Proof.
  intros s start v j H; unfold match_number in H.
  set (i0 := if char_at s start 45 then S start else start) in H.
  cbv zeta in H.
  destruct (if char_at s i0 48 then Some (S i0)
            else if digit_at s i0 then Some (i0 + digits_len (skipn i0 s))%nat
            else None) as [i1|] eqn:Eend; [|discriminate].
  match type of H with
  | context [if ?b then Some (Ok (PyFloat _, _)) else _] => destruct b
  end; [inversion H; constructor|].
  match type of H with
  | context [if ?b then Some (Raise _) else _] => destruct b eqn:Echeck
  end; [discriminate|].
  injection H as <- <-.
  (* the digits between [i0] and [i1] *)
  assert (Hsub : Forall (fun d => is_digit d = true) (sublist s i0 i1) /\
                 List.length (sublist s i0 i1) = (i1 - i0)%nat /\ (1 <= i1 - i0)%nat).
  { unfold sublist, char_at, digit_at in *.
    destruct (nth_error s i0) as [c|] eqn:Ec; [|discriminate].
    rewrite (skipn_nth _ _ _ Ec) in *.
    destruct (c =? 48) eqn:E48.
    - injection Eend as <-; apply Z.eqb_eq in E48; subst c.
      replace (S i0 - i0)%nat with 1%nat by lia; cbn.
      repeat split; [repeat constructor|lia].
    - destruct (is_digit c) eqn:Hd; [|discriminate]; injection Eend as <-.
      rewrite (Nat.add_comm i0), Nat.add_sub.
      destruct (firstn_digits_len (c :: skipn (S i0) s)) as [Hf1 Hf2].
      split; [exact Hf1|split; [exact Hf2|]]; cbn [digits_len]; rewrite Hd; lia. }
  destruct Hsub as (Hd & Hlen & Hpos).
  pose proof (digits_value_bound _ Hd) as Hb; rewrite Hlen in Hb.
  constructor; [|constructor].
  unfold str_int_within_limit.
  assert (Habs : forall (b : bool) x, 0 <= x -> Z.abs (if b then - x else x) = x)
    by (intros [|] x Hx; lia).
  rewrite Habs by lia.
  pose proof (int_str_length_bound _ _ Hb Hpos).
  apply andb_false_iff in Echeck; destruct Echeck as [E|E];
    [apply Z.ltb_ge in E; now left|apply Z.ltb_ge in E; right; lia].
Qed.

Lemma py_ints_list : forall l, py_ints (PyList l) = flat_map py_ints l.
Proof.
  induction l as [|x l IH]; [reflexivity|]; cbn [flat_map]; rewrite <- IH; reflexivity.
Qed.

Lemma py_ints_dict : forall d,
  py_ints (PyDict d) = flat_map (fun kv => py_ints (snd kv)) d.
Proof.
  induction d as [|[k x] d IH]; [reflexivity|]; cbn [flat_map snd]; rewrite <- IH;
    reflexivity.
Qed.

Lemma Forall_flat_map' {A B} (P : B -> Prop) (g : A -> list B) : forall l,
  Forall (fun x => Forall P (g x)) l -> Forall P (flat_map g l).
Proof. induction 1; cbn; [constructor|]; apply Forall_app; auto. Qed.

Lemma dict_set_Forall (Q : PyVal -> Prop) : forall d k v,
  Forall (fun kv => Q (snd kv)) d -> Q v -> Forall (fun kv => Q (snd kv)) (dict_set d k v).
Proof.
  induction d as [|[k' v'] d IH]; intros k v Hd Hv; cbn.
  - repeat constructor; assumption.
  - inversion Hd; subst; destruct (text_eqb k k'); constructor; auto.
Qed.

Lemma dict_of_pairs_Forall (Q : PyVal -> Prop) : forall ps,
  Forall (fun kv => Q (snd kv)) ps -> Forall (fun kv => Q (snd kv)) (dict_of_pairs ps).
Proof.
  unfold dict_of_pairs; intros ps.
  assert (G : forall acc, Forall (fun kv => Q (snd kv)) acc ->
            Forall (fun kv => Q (snd kv)) ps ->
            Forall (fun kv => Q (snd kv)) (fold_left (fun d kv => dict_set d (fst kv) (snd kv)) ps acc)).
  { induction ps as [|kv ps IH]; intros acc Ha Hp; [exact Ha|].
    inversion Hp; subst; cbn; apply IH; auto; now apply dict_set_Forall. }
  intros; apply G; auto.
Qed.

(** Case analysis on every [match] in [H]. *)
Ltac split_result H :=
  repeat (match type of H with
          | context [match ?x with _ => _ end] => destruct x eqn:?
          end;
          repeat match goal with E : ?p = (_, _) |- _ => is_var p; subst p end).

Lemma scan_ints : forall f,
  (forall d s i v j, scan_once max_depth int_max_str_digits f d s i = Ok (v, j) ->
     Forall str_int_within_limit (py_ints v)) /\
  (forall d s i acc ps k,
     Forall (fun kv => Forall str_int_within_limit (py_ints (snd kv))) acc ->
     parse_members max_depth int_max_str_digits f d s i acc = Ok (ps, k) ->
     Forall (fun kv => Forall str_int_within_limit (py_ints (snd kv))) ps) /\
  (forall d s i acc vs k,
     Forall (fun v => Forall str_int_within_limit (py_ints v)) acc ->
     parse_elems max_depth int_max_str_digits f d s i acc = Ok (vs, k) ->
     Forall (fun v => Forall str_int_within_limit (py_ints v)) vs).
Proof.
  induction f as [|f IH]; [repeat split; intros; discriminate|].
  destruct IH as (IHs & IHm & IHe); split; [|split].
  - intros d s i v j H; cbn [scan_once parse_members parse_elems] in H; split_result H;
      try discriminate; try (injection H as <- <-); try (cbn [py_ints]; constructor; fail).
    + rewrite py_ints_dict; apply Forall_flat_map'.
      apply (dict_of_pairs_Forall (fun v => Forall str_int_within_limit (py_ints v))); eapply IHm; [constructor|eassumption].
    + rewrite py_ints_list; apply Forall_flat_map'.
      eapply IHe; [constructor|eassumption].
    + subst r; eapply match_number_ints; eassumption.
  - intros d s i acc ps k Hacc H; cbn [scan_once parse_members parse_elems] in H; split_result H;
      try discriminate.
    all: match goal with
         | E : _ = Ok (_, _) |- _ => pose proof (IHs _ _ _ _ _ E)
         end.
    + injection H as <- <-; apply Forall_app; split;
        [apply Forall_rev; auto|repeat constructor; auto].
    + eapply IHm; [|exact H]; constructor; auto.
  - intros d s i acc vs k Hacc H; cbn [scan_once parse_members parse_elems] in H; split_result H;
      try discriminate.
    all: match goal with
         | E : _ = Ok (_, _) |- _ => pose proof (IHs _ _ _ _ _ E)
         end.
    + injection H as <- <-; apply Forall_app; split;
        [apply Forall_rev; auto|repeat constructor; auto].
    + eapply IHe; [|exact H]; constructor; auto.
Qed.

(** X: every int in the value [json.loads] returns, nested ones included,
    has at most [sys.get_int_max_str_digits()] digits (or the limit is
    off), so [str] of it never raises [ValueError]: the record line never
    fails on the digit limit. *)
Theorem json_loads_int_digits (b : bytes) (v : PyVal)
  (H : json_loads b = Ok v) :
  Forall str_int_within_limit (py_ints v).
Proof.
  unfold json_loads, json_decode in H; cbn [rbind] in H.
  destruct (decode_bytes b) as [s|e]; [|discriminate].
  cbn [rbind] in H; split_result H; try discriminate.
  injection H as <-; eapply (proj1 (scan_ints _)); eassumption.
Qed.

End Script.

(** ** The scanner on sample documents *)

Example decode_empty_object : json_decode max_depth0 int_max_str_digits0 (t "{}") = Ok (PyDict []).
Proof. reflexivity. Qed.

Example decode_zone :
  json_decode max_depth0 int_max_str_digits0 (tq "[{'id': 1, 'name': 'Zone A'}]")
  = Ok (PyList [PyDict [(t "id", PyInt 1); (t "name", PyStr (t "Zone A"))]]).
Proof. reflexivity. Qed.

Example decode_duplicate_key :
  json_decode max_depth0 int_max_str_digits0 (tq "{'id': 1, 'x': [], 'id': -20}")
  = Ok (PyDict [(t "id", PyInt (-20)); (t "x", PyList [])]).
Proof. reflexivity. Qed.

Example decode_numbers :
  json_decode max_depth0 int_max_str_digits0 (t "[-0, 1.5e3, 2E+1, NaN, -Infinity]")
  = Ok (PyList [PyInt 0; PyFloat (t "1.5e3"); PyFloat (t "2E+1");
                PyFloat (t "NaN"); PyFloat (t "-Infinity")]).
Proof. reflexivity. Qed.

Example decode_leading_zero :
  json_decode max_depth0 int_max_str_digits0 (t "01") = Raise (JSONDecodeError ExtraData (t "01") 1).
Proof. reflexivity. Qed.

Example decode_bad_exponent :
  json_decode max_depth0 int_max_str_digits0 (t "1e") = Raise (JSONDecodeError ExtraData (t "1e") 1).
Proof. reflexivity. Qed.

Example decode_escapes :
  json_decode max_depth0 int_max_str_digits0 (tq "'a\nb\u00e9\ud83d\ude00\ud800x'")
  = Ok (PyStr [97; 10; 98; 233; 128512; 55296; 120]).
Proof. reflexivity. Qed.

Example decode_empty_text :
  json_decode max_depth0 int_max_str_digits0 [] = Raise (JSONDecodeError ExpectingValue [] 0).
Proof. reflexivity. Qed.

Example decode_missing_comma :
  json_decode max_depth0 int_max_str_digits0 (t "[1 2]") = Raise (JSONDecodeError ExpectingComma (t "[1 2]") 3).
Proof. reflexivity. Qed.

(** ** Concrete runs *)

Example decode_utf8_bom :
  json_loads decode_wide0 max_depth0 int_max_str_digits0 [239; 187; 191; 91; 93] = Ok (PyList []).
Proof. reflexivity. Qed.

Example repr_nested :
  py_str float_str0 uni_printable0
    (PyDict [(t "a", PyList [PyStr [39; 10]; PyNone; PyBool true; PyInt (-12)])])
  = t "{'a': [" ++ [34; 39; 92; 110; 34] ++ t ", None, True, -12]}".
Proof. reflexivity. Qed.

(** The example of the specification. *)
Example run_one_zone :
  run float_str0 uni_printable0 decode_wide0 exc_str0 max_depth0 int_max_str_digits0
    (ProcExit 0 (tq "[{'id': 1, 'name': 'Zone A'}]"))
  = (render [header1; header2; t "ID: 1 - Name: Zone A"], 0).
Proof. reflexivity. Qed.

Example run_launch_failure :
  run float_str0 uni_printable0 decode_wide0 exc_str0 max_depth0 int_max_str_digits0 ProcLaunchFailure
  = (render [t "Error: FileNotFoundError"], 1).
Proof. reflexivity. Qed.

(** The nesting limit: 1000 nested arrays decode, 1001 raise [RecursionError]. *)
Example decode_nesting_limit :
  match json_decode max_depth0 int_max_str_digits0 (repeat 91 1000 ++ repeat 93 1000) with
  | Ok _ => true | Raise _ => false end = true /\
  json_decode max_depth0 int_max_str_digits0 (repeat 91 1001 ++ repeat 93 1001)
  = Raise (RecursionError_json (t "array")).
Proof. split; vm_compute; reflexivity. Qed.

(** The digit limit: an int literal of 4300 digits decodes, one of 4301 raises [ValueError]. *)
Example decode_digit_limit :
  match json_decode max_depth0 int_max_str_digits0 (repeat 49 4300) with
  | Ok (PyInt _) => true | _ => false end = true /\
  json_decode max_depth0 int_max_str_digits0 (repeat 49 4301)
  = Raise (ValueError_int_digits 4300 4301).
Proof. split; vm_compute; reflexivity. Qed.

(** A listing nested too deep prints only the Error line. *)
Example run_too_deep :
  run float_str0 uni_printable0 decode_wide0 exc_str0 max_depth0 int_max_str_digits0
    (ProcExit 0 (tq "[{'id': 1, 'name': 'A', 'x': " ++ repeat 91 999 ++ repeat 93 999 ++ t "}]"))
  = (render [t "Error: RecursionError"], 1).
Proof. vm_compute; reflexivity. Qed.

(** A listing with an over-long int literal prints only the Error line. *)
Example run_long_int :
  run float_str0 uni_printable0 decode_wide0 exc_str0 max_depth0 int_max_str_digits0
    (ProcExit 0 (tq "[{'id': " ++ repeat 49 4301 ++ tq ", 'name': 'A'}]"))
  = (render [t "Error: ValueError"], 1).
Proof. vm_compute; reflexivity. Qed.

Lemma exc_str0_clean : forall e, clean (exc_str0 e) = true.
Proof. destruct e; reflexivity. Qed.

(** ** Witnesses *)

Lemma listing_clean_lines_witness :
  json_loads decode_wide0 max_depth0 int_max_str_digits0 (tq "[{'id': 1, 'name': 'Zone A'}, {'id': 'z2', 'name': 'B'}]")
  = Ok (PyList [PyDict [(t "id", PyInt 1); (t "name", PyStr (t "Zone A"))];
                PyDict [(t "id", PyStr (t "z2")); (t "name", PyStr (t "B"))]]) /\
  exists lns,
    Forall2 (fun z ln => record_line float_str0 uni_printable0 z = Ok ln)
      [PyDict [(t "id", PyInt 1); (t "name", PyStr (t "Zone A"))];
       PyDict [(t "id", PyStr (t "z2")); (t "name", PyStr (t "B"))]] lns /\
    run float_str0 uni_printable0 decode_wide0 exc_str0 max_depth0 int_max_str_digits0
      (ProcExit 0 (tq "[{'id': 1, 'name': 'Zone A'}, {'id': 'z2', 'name': 'B'}]"))
    = (render (header1 :: header2 :: lns), 0) /\
    lines (fst (run float_str0 uni_printable0 decode_wide0 exc_str0 max_depth0 int_max_str_digits0
      (ProcExit 0 (tq "[{'id': 1, 'name': 'Zone A'}, {'id': 'z2', 'name': 'B'}]"))))
    = header1 :: header2 :: lns /\
    List.length (lines (fst (run float_str0 uni_printable0 decode_wide0 exc_str0 max_depth0 int_max_str_digits0
      (ProcExit 0 (tq "[{'id': 1, 'name': 'Zone A'}, {'id': 'z2', 'name': 'B'}]")))))
    = (2 + 2)%nat.
Proof.
  split; [reflexivity|].
  apply (listing_clean_lines float_str0 uni_printable0 decode_wide0 exc_str0 max_depth0 int_max_str_digits0).
  - reflexivity.
  - repeat constructor; do 3 eexists; repeat split; reflexivity.
  - repeat constructor; intros ln H; vm_compute in H; injection H as <-; reflexivity.
Defined.

Lemma invalid_json_error_only_witness :
  (forall v, json_loads decode_wide0 max_depth0 int_max_str_digits0 (t "<html>") <> Ok v) /\
  exists e,
    json_loads decode_wide0 max_depth0 int_max_str_digits0 (t "<html>") = Raise e /\
    run float_str0 uni_printable0 decode_wide0 exc_str0 max_depth0 int_max_str_digits0 (ProcExit 0 (t "<html>"))
    = (render [error_line exc_str0 e], 1) /\
    lines (fst (run float_str0 uni_printable0 decode_wide0 exc_str0 max_depth0 int_max_str_digits0
                  (ProcExit 0 (t "<html>")))) = [error_line exc_str0 e] /\
    ~ In header1 (lines (fst (run float_str0 uni_printable0 decode_wide0 exc_str0 max_depth0 int_max_str_digits0
                                (ProcExit 0 (t "<html>"))))) /\
    ~ In header2 (lines (fst (run float_str0 uni_printable0 decode_wide0 exc_str0 max_depth0 int_max_str_digits0
                                (ProcExit 0 (t "<html>"))))).
Proof.
  assert (Hbad : forall v, json_loads decode_wide0 max_depth0 int_max_str_digits0 (t "<html>") <> Ok v)
    by (intros v H; vm_compute in H; discriminate H).
  split; [exact Hbad|].
  exact (invalid_json_error_only float_str0 uni_printable0 decode_wide0 exc_str0 max_depth0 int_max_str_digits0
           exc_str0_clean (t "<html>") Hbad).
Defined.

Lemma non_array_top_level_witness :
  json_loads decode_wide0 max_depth0 int_max_str_digits0 (t "5") = Ok (PyInt 5) /\
  exists e, run float_str0 uni_printable0 decode_wide0 exc_str0 max_depth0 int_max_str_digits0 (ProcExit 0 (t "5"))
            = (render [header1; header2; error_line exc_str0 e], 1).
Proof.
  split; [reflexivity|].
  apply (proj2 (non_array_top_level float_str0 uni_printable0 decode_wide0 exc_str0 max_depth0 int_max_str_digits0
                  exc_str0_clean (t "5") (PyInt 5) eq_refl
                  ltac:(intros l; discriminate))); discriminate.
Defined.

Lemma missing_key_fails_witness :
  json_loads decode_wide0 max_depth0 int_max_str_digits0 (tq "[{'id': 1, 'name': 'A'}, {'id': 2}]")
  = Ok (PyList [PyDict [(t "id", PyInt 1); (t "name", PyStr (t "A"))];
                PyDict [(t "id", PyInt 2)]]) /\
  exists pre1 pre2 lns e,
    [PyDict [(t "id", PyInt 1); (t "name", PyStr (t "A"))]] = pre1 ++ pre2 /\
    Forall2 (fun z ln => zone_outcome float_str0 uni_printable0 z = Ok ln) pre1 lns /\
    run float_str0 uni_printable0 decode_wide0 exc_str0 max_depth0 int_max_str_digits0
      (ProcExit 0 (tq "[{'id': 1, 'name': 'A'}, {'id': 2}]"))
    = (render (header1 :: header2 :: lns ++ [error_line exc_str0 e]), 1).
Proof.
  split; [reflexivity|].
  apply (missing_key_fails float_str0 uni_printable0 decode_wide0 exc_str0 max_depth0 int_max_str_digits0
           exc_str0_clean (tq "[{'id': 1, 'name': 'A'}, {'id': 2}]")
           [PyDict [(t "id", PyInt 1); (t "name", PyStr (t "A"))];
            PyDict [(t "id", PyInt 2)]]
           [PyDict [(t "id", PyInt 1); (t "name", PyStr (t "A"))]] []
           (PyDict [(t "id", PyInt 2)])).
  - reflexivity.
  - reflexivity.
  - eexists; split; [reflexivity|]; right; reflexivity.
Defined.

Lemma fail_fast_keeps_output_witness :
  json_loads decode_wide0 max_depth0 int_max_str_digits0 (tq "[{'id': 1, 'name': 'A'}, 5, {'id': 2, 'name': 'B'}]")
  = Ok (PyList [PyDict [(t "id", PyInt 1); (t "name", PyStr (t "A"))]; PyInt 5;
                PyDict [(t "id", PyInt 2); (t "name", PyStr (t "B"))]]) /\
  run float_str0 uni_printable0 decode_wide0 exc_str0 max_depth0 int_max_str_digits0
    (ProcExit 0 (tq "[{'id': 1, 'name': 'A'}, 5, {'id': 2, 'name': 'B'}]"))
  = (render [header1; header2; t "ID: 1 - Name: A";
             error_line exc_str0 (TypeError_not_subscriptable (t "int"))], 1).
Proof.
  split; [reflexivity|].
  apply (fail_fast_keeps_output float_str0 uni_printable0 decode_wide0 exc_str0 max_depth0 int_max_str_digits0
           exc_str0_clean (tq "[{'id': 1, 'name': 'A'}, 5, {'id': 2, 'name': 'B'}]")
           [PyDict [(t "id", PyInt 1); (t "name", PyStr (t "A"))]; PyInt 5;
            PyDict [(t "id", PyInt 2); (t "name", PyStr (t "B"))]]
           [PyDict [(t "id", PyInt 1); (t "name", PyStr (t "A"))]]
           [PyDict [(t "id", PyInt 2); (t "name", PyStr (t "B"))]] (PyInt 5)
           [t "ID: 1 - Name: A"]).
  - reflexivity.
  - reflexivity.
  - repeat constructor.
  - reflexivity.
Defined.

Lemma curl_failure_error_witness :
  (7 <> 0) /\
  run float_str0 uni_printable0 decode_wide0 exc_str0 max_depth0 int_max_str_digits0 (ProcExit 7 [])
  = (render [error_line exc_str0 (CalledProcessError 7 [])], 1).
Proof.
  split; [discriminate|].
  apply (curl_failure_error float_str0 uni_printable0 decode_wide0 exc_str0 max_depth0 int_max_str_digits0
           exc_str0_clean 7 []); discriminate.
Defined.

Lemma record_line_format_witness :
  let d := [(t "id", PyInt 1); (t "name", PyStr (t "Zone A"))] in
  let line := t "ID: " ++ py_str float_str0 uni_printable0 (PyInt 1) ++ t " - Name: "
              ++ py_str float_str0 uni_printable0 (PyStr (t "Zone A")) in
  record_line float_str0 uni_printable0 (PyDict d) = Ok line /\
  (forall rest out,
     print_zones float_str0 uni_printable0 (PyDict d :: rest) out =
     if encodable line then print_zones float_str0 uni_printable0 rest (out ++ line ++ [newline])
     else (out, Raise (UnicodeEncodeError line))) /\
  (forall s, py_str float_str0 uni_printable0 (PyStr s) = s).
Proof.
  exact (record_line_format float_str0 uni_printable0
           [(t "id", PyInt 1); (t "name", PyStr (t "Zone A"))] (PyInt 1)
           (PyStr (t "Zone A")) eq_refl eq_refl).
Defined.

Lemma extra_fields_ignored_witness :
  let d := [(t "id", PyInt 1); (t "x", PyBool true); (t "name", PyStr (t "A"))] in
  record_line float_str0 uni_printable0 (PyDict d)
  = record_line float_str0 uni_printable0 (PyDict [(t "id", PyInt 1); (t "name", PyStr (t "A"))]) /\
  zone_outcome float_str0 uni_printable0 (PyDict d)
  = zone_outcome float_str0 uni_printable0 (PyDict [(t "id", PyInt 1); (t "name", PyStr (t "A"))]) /\
  (forall rest out,
     print_zones float_str0 uni_printable0 (PyDict d :: rest) out =
     print_zones float_str0 uni_printable0
       (PyDict [(t "id", PyInt 1); (t "name", PyStr (t "A"))] :: rest) out).
Proof.
  exact (extra_fields_ignored float_str0 uni_printable0
           [(t "id", PyInt 1); (t "x", PyBool true); (t "name", PyStr (t "A"))]
           (PyInt 1) (PyStr (t "A")) eq_refl eq_refl).
Defined.

(** ** Counterexamples *)

(** C2 as stated fails: the invalid-JSON constant [NaN] is accepted by [json.loads] (as a float), so the
    program prints both headers before failing on [for zone in zones]. *)
Lemma invalid_json_nan_counterexample :
  json_loads decode_wide0 max_depth0 int_max_str_digits0 (t "NaN") = Ok (PyFloat (t "NaN")) /\
  run float_str0 uni_printable0 decode_wide0 exc_str0 max_depth0 int_max_str_digits0
    (ProcExit 0 (t "NaN"))
  = (render [header1; header2; error_line exc_str0 (TypeError_not_iterable (t "float"))], 1).
Proof. split; vm_compute; reflexivity. Qed.

(** C1 as stated fails: a name holding a line feed spreads its record over
    two stdout lines (4 lines for one record), and a name holding a lone
    surrogate cannot be printed, so the run ends with status 1. *)
Lemma listing_line_count_counterexample :
  json_loads decode_wide0 max_depth0 int_max_str_digits0 (tq "[{'id': 1, 'name': 'A\nB'}]")
  = Ok (PyList [PyDict [(t "id", PyInt 1); (t "name", PyStr [65; 10; 66])]]) /\
  lines (fst (run float_str0 uni_printable0 decode_wide0 exc_str0 max_depth0 int_max_str_digits0
                (ProcExit 0 (tq "[{'id': 1, 'name': 'A\nB'}]"))))
  = [header1; header2; t "ID: 1 - Name: A"; t "B"] /\
  json_loads decode_wide0 max_depth0 int_max_str_digits0 (tq "[{'id': 1, 'name': '\ud800'}]")
  = Ok (PyList [PyDict [(t "id", PyInt 1); (t "name", PyStr [55296])]]) /\
  run float_str0 uni_printable0 decode_wide0 exc_str0 max_depth0 int_max_str_digits0
    (ProcExit 0 (tq "[{'id': 1, 'name': '\ud800'}]"))
  = (render [header1; header2;
             error_line exc_str0 (UnicodeEncodeError (t "ID: 1 - Name: " ++ [55296]))], 1).
Proof. repeat split; reflexivity. Qed.

(** C3 as stated fails: the body [{}] is valid JSON, not an array, and the
    run succeeds with the two header lines. *)
Lemma non_array_counterexample :
  json_loads decode_wide0 max_depth0 int_max_str_digits0 (t "{}") = Ok (PyDict []) /\
  run float_str0 uni_printable0 decode_wide0 exc_str0 max_depth0 int_max_str_digits0 (ProcExit 0 (t "{}"))
  = (render [header1; header2], 0).
Proof. split; reflexivity. Qed.

(** C4 as stated fails: the record line of the element before the one
    without [name] is already on stdout when the run fails. *)
Lemma missing_key_partial_counterexample :
  run float_str0 uni_printable0 decode_wide0 exc_str0 max_depth0 int_max_str_digits0
    (ProcExit 0 (tq "[{'id': 1, 'name': 'A'}, {'id': 2}]"))
  = (render [header1; header2; t "ID: 1 - Name: A";
             error_line exc_str0 (KeyError (t "name"))], 1) /\
  In (t "ID: 1 - Name: A")
     (lines (fst (run float_str0 uni_printable0 decode_wide0 exc_str0 max_depth0 int_max_str_digits0
                    (ProcExit 0 (tq "[{'id': 1, 'name': 'A'}, {'id': 2}]"))))).
Proof. split; [reflexivity|]; vm_compute; tauto. Qed.

Lemma launch_failure_error_witness :
  (forall e, clean (exc_str0 e) = true) /\
  run float_str0 uni_printable0 decode_wide0 exc_str0 max_depth0 int_max_str_digits0 ProcLaunchFailure
  = (render [error_line exc_str0 OSError_launch], 1).
Proof.
  split; [exact exc_str0_clean|].
  exact (launch_failure_error float_str0 uni_printable0 decode_wide0 exc_str0 max_depth0 int_max_str_digits0
           exc_str0_clean).
Defined.

Lemma run_failure_shape_witness :
  run float_str0 uni_printable0 decode_wide0 exc_str0 max_depth0 int_max_str_digits0 (ProcExit 7 [])
  = (render [error_line exc_str0 (CalledProcessError 7 [])], 1) /\
  exists e,
    (render [error_line exc_str0 (CalledProcessError 7 [])]
       = render [error_line exc_str0 e] /\
     (ProcExit 7 [] = ProcLaunchFailure \/
      exists c b, ProcExit 7 [] = ProcExit c b /\
        (c <> 0 \/ json_loads decode_wide0 max_depth0 int_max_str_digits0 b = Raise e))) \/
    (exists b v pre post lns,
       ProcExit 7 [] = ProcExit 0 b /\ json_loads decode_wide0 max_depth0 int_max_str_digits0 b = Ok v /\
       (py_iter v = Ok (pre ++ post) \/ (py_iter v = Raise e /\ pre = [])) /\
       Forall2 (fun z ln => zone_outcome float_str0 uni_printable0 z = Ok ln) pre lns /\
       render [error_line exc_str0 (CalledProcessError 7 [])]
       = render (header1 :: header2 :: lns ++ [error_line exc_str0 e])).
Proof.
  split; [reflexivity|].
  apply (run_failure_shape float_str0 uni_printable0 decode_wide0 exc_str0 max_depth0 int_max_str_digits0
           exc_str0_clean (ProcExit 7 [])
           (render [error_line exc_str0 (CalledProcessError 7 [])])).
  reflexivity.
Defined.

Lemma non_string_fields_clean_line_witness :
  (forall l, clean ((fun _ : text => t "0.5") l) = true) /\
  (forall v, (forall s, v <> PyStr s) ->
     clean (py_str (fun _ : text => t "0.5") uni_printable0 v) = true) /\
  (forall d i n, dict_get d (t "id") = Some i -> dict_get d (t "name") = Some n ->
     (forall s, i <> PyStr s) -> (forall s, n <> PyStr s) ->
     exists ln, zone_outcome (fun _ : text => t "0.5") uni_printable0 (PyDict d) = Ok ln /\
                clean ln = true).
Proof.
  assert (Hf : forall l, clean ((fun _ : text => t "0.5") l) = true)
    by (intros; reflexivity).
  split; [exact Hf|].
  exact (non_string_fields_clean_line (fun _ : text => t "0.5") uni_printable0 Hf).
Defined.

Lemma json_loads_int_digits_witness :
  json_loads decode_wide0 max_depth0 int_max_str_digits0 (tq "[{'id': -42, 'x': [7]}]")
  = Ok (PyList [PyDict [(t "id", PyInt (-42)); (t "x", PyList [PyInt 7])]]) /\
  Forall (str_int_within_limit int_max_str_digits0)
    (py_ints (PyList [PyDict [(t "id", PyInt (-42)); (t "x", PyList [PyInt 7])]])).
Proof.
  assert (H : json_loads decode_wide0 max_depth0 int_max_str_digits0 (tq "[{'id': -42, 'x': [7]}]")
              = Ok (PyList [PyDict [(t "id", PyInt (-42)); (t "x", PyList [PyInt 7])]]))
    by reflexivity.
  split; [exact H|].
  exact (json_loads_int_digits decode_wide0 max_depth0 int_max_str_digits0 _ _ H).
Defined.
